(** * Git diff and goto-diff commands (git/diff.py)

    A shallow embedding of the two halves of [git/diff.py]:

    - [GitDiff]: the chain of callbacks that stages untracked files, runs
      [git diff], displays the output and resets the staged files;
    - [GitGotoDiff]: the backward scan from the cursor of a diff view to the
      enclosing hunk header and file marker, the header regular expression,
      and the resolution of the target path against a base directory.

    Characters are code points below 256 ([ascii]); Python integers are [Z];
    buffer offsets, which the editor never hands out negative, are [nat]. *)

From Stdlib Require Import ZArith Ascii String List Lia Bool.
From stdpp Require Import gmap strings list fin_maps.

Local Open Scope string_scope.
Local Open Scope list_scope.
Local Open Scope stdpp_scope.
Local Open Scope nat_scope.

(** ** Python strings *)

Module Py.

Definition nl : ascii := "010"%char.

Definition NL : string := String nl "".

(** [str.isspace] on the code points below 256. *)
Definition is_space (c : ascii) : bool :=
  let n := N_of_ascii c in
  ((9 <=? n) && (n <=? 13) || (28 <=? n) && (n <=? 32)
   || (n =? 133) || (n =? 160))%N.

Definition is_digit (c : ascii) : bool :=
  let n := N_of_ascii c in ((48 <=? n) && (n <=? 57))%N.

(** [s.startswith(p)] *)
Definition startswith (p s : string) : bool := String.prefix p s.

(** [s[n:]] *)
Fixpoint slice_from (n : nat) (s : string) : string :=
  match n, s with
  | S n', String _ s' => slice_from n' s'
  | _, _ => s
  end.

(** [s[a:b]] for [0 <= a]. *)
Definition slice (a b : nat) (s : string) : string :=
  String.substring a (b - a) s.

(** [needle in hay] *)
Fixpoint contains (needle hay : string) : bool :=
  startswith needle hay ||
  match hay with
  | "" => false
  | String _ hay' => contains needle hay'
  end.

Fixpoint lstrip (s : string) : string :=
  match s with
  | String c s' => if is_space c then lstrip s' else s
  | "" => ""
  end.

Fixpoint rstrip (s : string) : string :=
  match s with
  | String c s' =>
      let r := rstrip s' in
      if is_space c && (r =? "")%string then "" else String c r
  | "" => ""
  end.

Definition strip (s : string) : string := rstrip (lstrip s).

(** [s.split('\n')] *)
Fixpoint split_nl (s : string) : list string :=
  match s with
  | "" => [""]
  | String c s' =>
      if Ascii.eqb c nl then "" :: split_nl s'
      else match split_nl s' with
           | l :: ls => String c l :: ls
           | [] => [String c ""]
           end
  end.

Definition digit_val (c : ascii) : Z := Z.of_N (N_of_ascii c) - 48.

Fixpoint int_acc (acc : Z) (s : string) : Z :=
  match s with
  | "" => acc
  | String c s' => int_acc (10 * acc + digit_val c) s'
  end.

(** [int(s)] for a string of decimal digits. *)
Definition int (s : string) : Z := int_acc 0 s.

(** ['\n'.join(lines)] *)
Fixpoint join_nl (lines : list string) : string :=
  match lines with
  | [] => ""
  | [l] => l
  | l :: ls => l +:+ String nl (join_nl ls)
  end.

(** A string that can be one line of a buffer: it holds no newline. *)
Fixpoint no_nl (s : string) : bool :=
  match s with
  | "" => true
  | String c s' => negb (Ascii.eqb c nl) && no_nl s'
  end.

(** What follows a line in a buffer: nothing, or a newline and more. *)
Definition line_end (rest : string) : Prop :=
  rest = "" ∨ ∃ rest', rest = String nl rest'.

(** Truth value of an object that is [None] or a string. *)
Definition truthy (o : option string) : bool :=
  match o with
  | Some s => negb (s =? "")%string
  | None => false
  end.

(** The exceptions this file can raise. *)
Inductive exn : Type :=
| TypeError
| AttributeError.

Inductive Res (A : Type) : Type :=
| Ok (a : A)
| Raise (e : exn).
Global Arguments Ok {A} a.
Global Arguments Raise {A} e.

(** State and exception monad: a method call on an object whose state is
    [S] either returns or raises, and leaves a state behind either way. *)
Definition M (S A : Type) : Type := S → Res A * S.

Global Instance M_ret {S} : MRet (M S) := λ A a st, (Ok a, st).
Global Instance M_bind {S} : MBind (M S) := λ A B f m st,
  match m st with
  | (Ok a, st') => f a st'
  | (Raise e, st') => (Raise e, st')
  end.

Definition raise {S A} (e : exn) : M S A := λ st, (Raise e, st).
Definition get {S} : M S S := λ st, (Ok st, st).

End Py.

(** ** os.path *)

Module OsPath.

(** [posixpath.join(a, b)] on two strings. *)
Definition join (a b : string) : string :=
  if Py.startswith "/" b then b
  else if (a =? "")%string || Py.startswith "/" (String.rev a) then a +:+ b
  else a +:+ "/" +:+ b.

End OsPath.

(** ** GitDiff *)

Module GitDiff.

(** The keys of Git.sublime-settings the command reads. *)
Record Settings : Type := {
  diff_untracked_files : bool;
  diff_panel : bool;
  diff_syntax : string
}.

(** What the command does to the outside: external commands in the order
    they are started, and the two ways of showing text. *)
Inductive Event : Type :=
| RunCommand (argv : list string)
| Panel (text : string) (syntax : option string)
| Scratch (text title syntax : string).

(** The attributes of the command object.  [empty_stages] is [None] as long
    as no assignment has created the attribute. *)
Record Self : Type := {
  ignore_whitespace : bool;
  empty_stages : option (list string)
}.

Record State : Type := {
  self : Self;
  events : list Event
}.

Import Py.

Definition emit (ev : Event) : M State unit := λ st,
  (Ok tt, {| self := self st; events := events st ++ [ev] |}).

Definition get_self : M State Self := λ st, (Ok (self st), st).

Definition set_self (s : Self) : M State unit := λ st,
  (Ok tt, {| self := s; events := events st |}).

(** [self.empty_stages]: AttributeError when the attribute is missing. *)
Definition read_empty_stages : M State (list string) :=
  s ← get_self;
  match empty_stages s with
  | Some l => mret l
  | None => raise Py.AttributeError
  end.

(** What [diff_done] shows for a non-empty output. *)
Definition display (settings : Settings) (result : string) : Event :=
  if diff_panel settings
  then Panel result (Some (diff_syntax settings))
  else Scratch result "Git Diff" (diff_syntax settings).

Section Commands.

(** The external collaborators: the settings file, the file the command
    is run on ([get_file_name]) and the text git prints for an argv. *)
Variable settings : Settings.
Variable file_name : string.
Variable git : list string → string.

(** [run_command(command, callback)]: the command is started and its
    output is handed to the callback. *)
Definition run_command {A} (command : list string)
    (callback : string → M State A) : M State A :=
  _ ← emit (RunCommand command); callback (git command).

(** [run_command(command)] without a callback of this file. *)
Definition run_command_ (command : list string) : M State unit :=
  emit (RunCommand command).

Definition reset_untracked_files : M State unit :=
  stages ← read_empty_stages;
  if 0 <? List.length stages then
    let reset_empty_stages_command :=
      ["git"; "reset"; "--quiet"; "--"] ++ stages in
    run_command_ reset_empty_stages_command
  else mret tt.

Definition diff_done (result : string) : M State unit :=
  if (Py.strip result =? "")%string then
    emit (Panel "No output" None)
  else
    _ ← emit (display settings result);
    reset_untracked_files.

(** The argv that [continue_diff] builds. *)
Definition diff_command (ignore_ws : bool) : list string :=
  let command := ["git"; "diff"; "--no-color"] in
  let command :=
    if ignore_ws
    then command ++ ["--ignore-all-space"; "--ignore-blank-lines"]
    else command in
  command ++ ["--"; file_name].

Definition continue_diff (result : option string) : M State unit :=
  s ← get_self;
  run_command (diff_command (ignore_whitespace s)) diff_done.

Definition untracked_files_command : list string :=
  ["git"; "status"; "-uall"; "--porcelain"].

(** [[x[3:] for x in lines if x.startswith('??')]] on the lines of the
    status output. *)
Definition untracked (result : string) : list string :=
  let lines := Py.split_nl (Py.rstrip result) in
  map (Py.slice_from 3)
    (filter (λ x, Py.startswith "??" x = true) lines).

Definition stage_untracked_files_result (result : string)
    : M State unit :=
  s ← get_self;
  _ ← set_self {| ignore_whitespace := ignore_whitespace s;
                  empty_stages := Some (untracked result) |};
  if 0 <? List.length (untracked result) then
    let command := ["git"; "add"; "."; "-N"] in
    run_command command (λ r, continue_diff (Some r))
  else mret tt.

Definition stage_untracked_files : M State unit :=
  run_command untracked_files_command stage_untracked_files_result.

Definition run (ignore_ws : bool) : M State unit :=
  s ← get_self;
  _ ← set_self {| ignore_whitespace := ignore_ws;
                  empty_stages := empty_stages s |};
  if diff_untracked_files settings then stage_untracked_files
  else continue_diff None.

End Commands.

(** A command object on which nothing has run yet. *)
Definition fresh : State :=
  {| self := {| ignore_whitespace := false; empty_stages := None |};
     events := [] |}.

End GitDiff.

(** ** The editor's view of a buffer *)

Module Sublime.

Record Region : Type := mkRegion { a : nat; b : nat }.

(** Walk the text from offset [i]; [start] is where the line holding [i]
    began.  The line of [pt] ends at the first newline at or after [pt],
    or at the end of the buffer. *)
Fixpoint find_line (s : string) (start i pt : nat) : Region :=
  match s with
  | "" => mkRegion start i
  | String c s' =>
      if Ascii.eqb c Py.nl then
        if (pt <=? i)%nat then mkRegion start i
        else find_line s' (S i) (S i) pt
      else find_line s' start (S i) pt
  end.

(** [view.line(pt)]: the region of the line holding [pt], without its
    newline. *)
Definition line (text : string) (pt : nat) : Region :=
  find_line text 0 0 pt.

(** [view.substr(region)] *)
Definition substr (text : string) (r : Region) : string :=
  Py.slice (Nat.min (a r) (b r)) (Nat.max (a r) (b r)) text.

(** What a command reads from its view: the buffer, the first selection's
    anchor, the scope name the syntax definition gives each point, and the
    folder [get_open_folder_from_window] finds for the view's window. *)
Record View : Type := {
  text : string;
  sel0_a : nat;
  scope_name : nat → string;
  open_folder : option string
}.

End Sublime.

(** ** GitGotoDiff *)

Module GitGotoDiff.

Import Py.

Inductive Effect : Type :=
| StatusMessage (msg : string)
| ShowInputPanel (caption initial_text : string)
| SettingsSet (key value : string)
| OpenFile (path : string)
| GotoXY (path : string) (line column : Z).

(** The command object's attributes, the view's settings and what the
    command has done so far. *)
Record State : Type := {
  column : option Z;
  file_name : option string;
  goto_line : option Z;
  settings : gmap string string;
  effects : list Effect
}.

(** The assignments to the state, one per field. *)
Definition with_effect (e : Effect) (st : State) : State :=
  {| column := column st; file_name := file_name st;
     goto_line := goto_line st; settings := settings st;
     effects := effects st ++ [e] |}.

Definition with_column (c : Z) (st : State) : State :=
  {| column := Some c; file_name := file_name st;
     goto_line := goto_line st; settings := settings st;
     effects := effects st |}.

Definition with_file_name (f : option string) (st : State) : State :=
  {| column := column st; file_name := f;
     goto_line := goto_line st; settings := settings st;
     effects := effects st |}.

Definition with_goto_line (l : Z) (st : State) : State :=
  {| column := column st; file_name := file_name st;
     goto_line := Some l; settings := settings st;
     effects := effects st |}.

Definition with_setting (key value : string) (st : State) : State :=
  {| column := column st; file_name := file_name st;
     goto_line := goto_line st;
     settings := <[key := value]> (settings st);
     effects := effects st ++ [SettingsSet key value] |}.

Definition emit (e : Effect) : M State unit := λ st,
  (Ok tt, with_effect e st).

Definition set_column (c : Z) : M State unit := λ st,
  (Ok tt, with_column c st).

Definition set_file_name (f : option string) : M State unit := λ st,
  (Ok tt, with_file_name f st).

Definition set_goto_line (l : Z) : M State unit := λ st,
  (Ok tt, with_goto_line l st).

(** [v.settings().get(key)] *)
Definition settings_get (key : string) : M State (option string) := λ st,
  (Ok (settings st !! key), st).

(** [v.settings().set(key, value)] *)
Definition settings_set (key value : string) : M State unit := λ st,
  (Ok tt, with_setting key value st).

(** Reading an attribute that no assignment has created. *)
Definition attr {A} (o : option A) : M State A :=
  match o with
  | Some x => mret x
  | None => raise AttributeError
  end.

(** *** The backward scan *)

Record Scan : Type := {
  scan_file_name : option string;
  hunk_line : option string;
  line_offset : Z
}.

Definition scan_init : Scan :=
  {| scan_file_name := None; hunk_line := None; line_offset := 0 |}.

Inductive Step : Type :=
| Break (s : Scan)
| Continue (s : Scan).

(** The [if]/[elif] chain of the loop body.  It sees the view through two
    strings only: [lineContent] and, for the marker branch,
    [v.substr(sublime.Region(line.a + 6, line.b))]. *)
Definition scan_body (lineContent after_marker : string) (s : Scan)
    : Step :=
  if startswith "@@" lineContent then
    if negb (truthy (hunk_line s)) then
      Continue {| scan_file_name := scan_file_name s;
                  hunk_line := Some lineContent;
                  line_offset := line_offset s |}
    else Continue s
  else if startswith "+++ b/" lineContent then
    Break {| scan_file_name := Some (strip after_marker);
             hunk_line := hunk_line s;
             line_offset := line_offset s |}
  else if negb (truthy (hunk_line s)) && negb (startswith "-" lineContent)
  then
    Continue {| scan_file_name := scan_file_name s;
                hunk_line := hunk_line s;
                line_offset := line_offset s + 1 |}
  else Continue s.

(** The body of the [while] loop up to the assignment to [pt]. *)
Definition scan_step (text : string) (pt : nat) (s : Scan) : Step :=
  let line := Sublime.line text pt in
  let lineContent := Sublime.substr text line in
  scan_body lineContent
    (Sublime.substr text
       (Sublime.mkRegion (Sublime.a line + 6) (Sublime.b line)))
    s.

(** [while pt > 0: ...; pt = v.line(pt - 1).a] *)
Fixpoint scan_loop (fuel : nat) (text : string) (pt : nat) (s : Scan)
    : option Scan :=
  if (0 <? pt)%nat then
    match fuel with
    | O => None
    | S fuel' =>
        match scan_step text pt s with
        | Break s' => Some s'
        | Continue s' =>
            scan_loop fuel' text (Sublime.a (Sublime.line text (pt - 1))) s'
        end
    end
  else Some s.

(** Every iteration moves [pt] to a smaller offset, so [pt] iterations
    are enough. *)
Definition scan (text : string) (pt : nat) : option Scan :=
  scan_loop pt text pt scan_init.

(** The same loop over the lines it visits, the cursor's line first and
    then upwards.  [scan_of_lines] below shows that [scan] computes this
    on a buffer made of these lines. *)
Fixpoint scan_lines (lines : list string) (s : Scan) : Scan :=
  match lines with
  | [] => s
  | l :: above =>
      match scan_body l (slice_from 6 l) s with
      | Break s' => s'
      | Continue s' => scan_lines above s'
      end
  end.

(** *** The hunk header *)

(** The groups of a match of
    [^@@ -(\d+)(,(\d+))? \+(\d+)(,(\d+))? @@.*] *)
Record Match : Type := {
  group1 : string;
  group3 : option string;
  group4 : string;
  group6 : option string
}.

(** A literal at the head of [s]; what follows it. *)
Fixpoint literal (lit s : string) : option string :=
  match lit, s with
  | "", _ => Some s
  | String x lit', String y s' =>
      if Ascii.eqb x y then literal lit' s' else None
  | String _ _, "" => None
  end.

(** The longest run of digits at the head of [s], and the rest. *)
Fixpoint span_digits (s : string) : string * string :=
  match s with
  | String c s' =>
      if is_digit c then
        let '(d, r) := span_digits s' in (String c d, r)
      else ("", s)
  | "" => ("", "")
  end.

(** [(\d+)] *)
Definition digits1 (s : string) : option (string * string) :=
  let '(d, r) := span_digits s in
  if (d =? "")%string then None else Some (d, r).

(** [(,(\d+))?] *)
Definition opt_len (s : string) : option string * string :=
  match literal "," s with
  | Some s' =>
      match digits1 s' with
      | Some (d, r) => (Some d, r)
      | None => (None, s)
      end
  | None => (None, s)
  end.

(** The match on a string.  A run of digits is always followed by a
    literal that is not a digit, so the greedy match is the only one and
    no backtracking is needed; the final [.*] matches whatever is left. *)
Definition match_hunk (s : string) : option Match :=
  r0 ← literal "@@ -" s;
  '(g1, r1) ← digits1 r0;
  let '(g3, r2) := opt_len r1 in
  r3 ← literal " +" r2;
  '(g4, r4) ← digits1 r3;
  let '(g6, r5) := opt_len r4 in
  _ ← literal " @@" r5;
  Some {| group1 := g1; group3 := g3; group4 := g4; group6 := g6 |}.

(** [re.match(pattern, hunk_line)]: TypeError when [hunk_line] is [None]. *)
Definition re_match (hunk_line : option string) : M State (option Match) :=
  match hunk_line with
  | Some s => mret (match_hunk s)
  | None => raise TypeError
  end.

(** *** The command *)

Section Command.

(** The file system and the repository root finder of the package. *)
Variable isfile : string → bool.
Variable git_root : string → option string.

(** [os.path.join(a, b)] where [b] may be [None]: [None.startswith] is an
    AttributeError (a TypeError from Python 3.6 on). *)
Definition os_path_join (a : string) (b : option string)
    : M State string :=
  match b with
  | Some b => mret (OsPath.join a b)
  | None => raise AttributeError
  end.

(** [os.path.isfile(p)] where [p] may be [None]: [os.stat(None)] is a
    TypeError, which [isfile] does not catch. *)
Definition os_path_isfile (p : option string) : M State bool :=
  match p with
  | Some p => mret (isfile p)
  | None => raise TypeError
  end.

(** ['%s' % o] *)
Definition format_s (o : option string) : string :=
  match o with
  | Some s => s
  | None => "None"
  end.

Definition on_path_confirmed (git_root_dir : string) : M State unit :=
  old_git_root_dir ← settings_get "git_root_dir";
  _ ← (if decide (old_git_root_dir ≠ Some git_root_dir)
       then settings_set "git_root_dir" git_root_dir
       else mret tt);
  st ← get;
  full_path_file_name ← os_path_join git_root_dir (file_name st);
  _ ← emit (OpenFile full_path_file_name);
  goto_line ← attr (goto_line st);
  column ← attr (column st);
  emit (GotoXY full_path_file_name goto_line column).

(** Lines 135 to 158 of [run]: find the base directory, compose the path
    and either open the file or ask for the base directory. *)
Definition resolve (v : Sublime.View) : M State unit :=
  git_root_dir ← settings_get "git_root_dir";
  let git_root_dir :=
    if negb (truthy git_root_dir) then
      let working_dir := Sublime.open_folder v in
      if truthy working_dir then
        match working_dir with
        | Some d => git_root d
        | None => None
        end
      else None
    else git_root_dir in
  st ← get;
  '(full_path_file_name, git_root_dir) ←
    match git_root_dir with
    | Some d =>
        if truthy (Some d) then
          p ← os_path_join d (file_name st); mret (Some p, d)
        else mret (file_name st, "")
    | None => mret (file_name st, "")
    end;
  exists_ ← os_path_isfile full_path_file_name;
  if negb exists_ then
    let caption :=
      "Enter base directory for file '" +:+ format_s (file_name st)
        +:+ "':" in
    emit (ShowInputPanel caption git_root_dir)
  else on_path_confirmed git_root_dir.

(** Lines 127 to 158 of [run], after the scan. *)
Definition after_scan (v : Sublime.View) (s : Scan) : M State unit :=
  _ ← set_file_name (scan_file_name s);
  hunk ← re_match (hunk_line s);
  match hunk with
  | None => emit (StatusMessage "No hunk info")
  | Some hunk =>
      let hunk_start_line := group4 hunk in
      _ ← set_goto_line (int hunk_start_line + line_offset s - 1);
      resolve v
  end.

(** [run]; [None] when the scan's fuel runs out. *)
Definition run (v : Sublime.View) (st : State)
    : option (Res unit * State) :=
  let view_scope_name := Sublime.scope_name v (Sublime.sel0_a v) in
  let scope_markup_inserted :=
    contains "markup.inserted.diff" view_scope_name in
  let scope_markup_deleted :=
    contains "markup.deleted.diff" view_scope_name in
  if negb scope_markup_inserted && negb scope_markup_deleted then
    Some (Ok tt, st)
  else
    let beg := Sublime.sel0_a v in
    let pt := Sublime.a (Sublime.line (Sublime.text v) beg) in
    match scan (Sublime.text v) pt with
    | None => None
    | Some s =>
        Some ((_ ← set_column (Z.of_nat beg - Z.of_nat pt - 1);
               after_scan v s) st)
    end.

End Command.

(** A command object before its first run, on a view with the given
    settings. *)
Definition fresh (view_settings : gmap string string) : State :=
  {| column := None; file_name := None; goto_line := None;
     settings := view_settings; effects := [] |}.

End GitGotoDiff.

(** ** The specification's vocabulary *)

Module Spec.

Import Py GitGotoDiff.

(** *** Hunk headers, after the pattern
    [^@@ -(\d+)(,(\d+))? \+(\d+)(,(\d+))? @@] *)

Fixpoint all_digits (s : string) : bool :=
  match s with
  | "" => true
  | String c s' => is_digit c && all_digits s'
  end.

(** [\d+] *)
Definition number (s : string) : Prop := s ≠ "" ∧ all_digits s = true.

(** What can follow a run of digits: the end, or a character that is not
    a digit. *)
Definition no_digit_ahead (r : string) : Prop :=
  match r with
  | "" => True
  | String c _ => is_digit c = false
  end.

(** The text of an optional group [(,(\d+))?] and its condition. *)
Definition len_text (o : option string) : string :=
  match o with
  | Some d => "," +:+ d
  | None => ""
  end.

Definition len_ok (o : option string) : Prop :=
  match o with
  | Some d => number d
  | None => True
  end.

(** A header with the given groups; [rest] is the trailing content. *)
Definition header_text (m : Match) (rest : string) : string :=
  "@@ -" +:+ group1 m +:+ len_text (group3 m) +:+ " +" +:+ group4 m
    +:+ len_text (group6 m) +:+ " @@" +:+ rest.

Definition well_formed (m : Match) : Prop :=
  number (group1 m) ∧ len_ok (group3 m) ∧ number (group4 m)
  ∧ len_ok (group6 m).


(** The digit a character stands for. *)
Definition digit_of (c : ascii) : Z :=
  if Ascii.eqb c "0" then 0 else if Ascii.eqb c "1" then 1
  else if Ascii.eqb c "2" then 2 else if Ascii.eqb c "3" then 3
  else if Ascii.eqb c "4" then 4 else if Ascii.eqb c "5" then 5
  else if Ascii.eqb c "6" then 6 else if Ascii.eqb c "7" then 7
  else if Ascii.eqb c "8" then 8 else if Ascii.eqb c "9" then 9
  else 0.

(** The number a string of digits denotes: each digit times the power of
    ten of its place. *)
Fixpoint decimal_value (s : string) : Z :=
  match s with
  | "" => 0
  | String c s' =>
      digit_of c * 10 ^ Z.of_nat (String.length s') + decimal_value s'
  end.

(** *** Navigation *)

(** The cursor is on a line styled as inserted or deleted. *)
Definition applicable (v : Sublime.View) : bool :=
  let name := Sublime.scope_name v (Sublime.sel0_a v) in
  contains "markup.inserted.diff" name || contains "markup.deleted.diff" name.

(** The start of the cursor's line, where the scan begins. *)
Definition cursor_line_start (v : Sublime.View) : nat :=
  Sublime.a (Sublime.line (Sublime.text v) (Sublime.sel0_a v)).

(** The column [run] stores. *)
Definition cursor_column (v : Sublime.View) : Z :=
  Z.of_nat (Sublime.sel0_a v) - Z.of_nat (cursor_line_start v) - 1.

(** A line the scan takes for a file marker. *)
Definition is_marker (l : string) : bool := startswith "+++ b/" l.

(** *** Path resolution *)

(** The caller's best guess of the repository root. *)
Definition window_root_hint (git_root : string → option string)
    (v : Sublime.View) : option string :=
  match Sublime.open_folder v with
  | Some d => if truthy (Some d) then git_root d else None
  | None => None
  end.

(** The stored base if present, otherwise the hint. *)
Definition candidate_base (git_root : string → option string)
    (v : Sublime.View) (stored_base : option string) : option string :=
  if truthy stored_base then stored_base else window_root_hint git_root v.

(** The candidate base joined with the relative path; the relative path
    alone when there is no base. *)
Definition full_path (candidate : option string) (rel : string) : string :=
  match candidate with
  | Some base => if truthy (Some base) then OsPath.join base rel else rel
  | None => rel
  end.

(** The text the prompt starts with. *)
Definition prefill (candidate : option string) : string :=
  match candidate with
  | Some base => base
  | None => ""
  end.

Definition caption (rel : string) : string :=
  "Enter base directory for file '" +:+ rel +:+ "':".

(** The settings write of a confirmation, if there is one. *)
Definition settings_write (stored : option string) (base : string)
    : list Effect :=
  if decide (stored = Some base) then []
  else [SettingsSet "git_root_dir" base].

End Spec.

(** ** Inputs for the examples *)

Module Examples.

Import Py.

(** *** GitDiff *)

Import GitDiff.

(** Two settings files, a git whose answers depend on the subcommand
    only, and two status outputs. *)
Definition settings_staging : Settings :=
  {| diff_untracked_files := true; diff_panel := false;
     diff_syntax := "Packages/Diff/Diff.tmLanguage" |}.

Definition settings_plain : Settings :=
  {| diff_untracked_files := false; diff_panel := false;
     diff_syntax := "Packages/Diff/Diff.tmLanguage" |}.

Definition git_answers (status diff : string) (argv : list string)
    : string :=
  match argv with
  | _ :: "status" :: _ => status
  | _ :: "diff" :: _ => diff
  | _ => ""
  end.

Definition one_untracked : string := "?? new.txt" +:+ NL.

Definition one_modified : string := " M a.txt" +:+ NL.

(** *** GitGotoDiff *)

(** Scope names by prefix, as the Diff syntax gives them to added and
    removed lines. *)
Definition prefix_scope (text : string) (pt : nat) : string :=
  let l := Sublime.substr text (Sublime.line text pt) in
  if startswith "+++ " l || startswith "--- " l
  then "source.diff meta.diff.header "
  else if startswith "+" l then "source.diff markup.inserted.diff "
  else if startswith "-" l then "source.diff markup.deleted.diff "
  else "source.diff ".

(** A view on the given lines with the cursor [col] characters into line
    number [row] (from 0). *)
Definition view_at (lines : list string) (row col : nat) : Sublime.View :=
  let t := join_nl lines in
  {| Sublime.text := t;
     Sublime.sel0_a := String.length (join_nl (take row lines)) + 1 + col;
     Sublime.scope_name := prefix_scope t;
     Sublime.open_folder := Some "/work/repo/src" |}.

Definition no_file (_ : string) : bool := false.
Definition every_file (_ : string) : bool := true.
Definition repo_root (_ : string) : option string := Some "/work/repo".

(** The diff of the end-to-end example. *)
Definition diff_foo : list string :=
  ["diff --git a/src/foo.txt b/src/foo.txt";
   "--- a/src/foo.txt";
   "+++ b/src/foo.txt";
   "@@ -10,2 +10,3 @@";
   " context";
   "+added";
   ""].

(** One hunk followed by added, context and removed lines. *)
Definition diff_xyzw : list string :=
  ["diff --git a/f b/f";
   "--- a/f";
   "+++ b/f";
   "@@ -1,3 +1,4 @@";
   "+x";
   "+y";
   " z";
   "-w"].

(** A file marker but no hunk header above the cursor. *)
Definition diff_no_hunk : list string :=
  ["diff --git a/f b/f";
   "--- a/f";
   "+++ b/f";
   "+x"].

(** A hunk header but no [+++ b/] line above the cursor: the output of
    git with [diff.mnemonicPrefix] set, which names the sides [i/] and
    [w/]. *)
Definition diff_no_marker : list string :=
  ["diff --git i/f w/f";
   "--- i/f";
   "+++ w/f";
   "@@ -1 +1 @@";
   "+x"].

(** The diff of the end-to-end example without the lines git prints above
    the file marker: the marker is the first line of the buffer. *)
Definition diff_foo_bare : list string :=
  ["+++ b/src/foo.txt";
   "@@ -10,2 +10,3 @@";
   " context";
   "+added";
   ""].


End Examples.

(** ** GitDiffCommit *)

Module GitDiffCommit.

Import Py GitDiff.

Section Commands.

Variable settings : Settings.
Variable git : list string → string.

Definition diff_done (result : string) : M State unit :=
  if (Py.strip result =? "")%string then
    emit (Panel "No output" None)
  else
    emit (Scratch result "Git Diff" (diff_syntax settings)).

(** The argv that [run] builds. *)
Definition diff_command (ignore_whitespace : bool) : list string :=
  let command := ["git"; "diff"; "--cached"; "--no-color"] in
  if ignore_whitespace
  then command ++ ["--ignore-all-space"; "--ignore-blank-lines"]
  else command.

Definition run (ignore_whitespace : bool) : M State unit :=
  run_command git (diff_command ignore_whitespace) diff_done.

End Commands.

End GitDiffCommit.

(** ** Lines of a hunk *)

Module Locate.

Import Py GitGotoDiff Spec.

(** A line the scan takes for a hunk header. *)
Definition is_header (l : string) : bool := startswith "@@" l.

(** A line that is neither: the scan passes it and may count it. *)
Definition is_content (l : string) : bool :=
  negb (is_header l) && negb (is_marker l).

(** A line the new file has: it does not start with [-]. *)
Definition counted (l : string) : bool := negb (startswith "-" l).

(** The number of lines of the new file among the given ones. *)
Definition count_new (ls : list string) : Z :=
  Z.of_nat (List.length (List.filter counted ls)).

(** A string of white space only. *)
Definition blank (s : string) : bool :=
  forallb is_space (list_ascii_of_string s).

End Locate.

(** ** More inputs for the examples *)

Module MoreExamples.

Import Py.

(** A status output with a modified file between two untracked ones. *)
Definition status_lines : list string :=
  ["?? new.txt"; " M a.txt"; "?? doc/b.txt"].

Definition status_output : string := join_nl status_lines +:+ NL.

(** A command object that staged [new.txt] in an earlier run. *)
Definition staged_before : GitDiff.State :=
  {| GitDiff.self := {| GitDiff.ignore_whitespace := false;
                        GitDiff.empty_stages := Some ["new.txt"] |};
     GitDiff.events := [] |}.

(** A buffer that starts with the file marker. *)
Definition diff_marker_first : list string :=
  ["+++ b/f";
   "@@ -1 +1 @@";
   "+x"].

(** An added line whose text starts with [++ b/], below the header. *)
Definition diff_marker_in_hunk : list string :=
  ["diff --git a/f b/f";
   "--- a/f";
   "+++ b/f";
   "@@ -1 +1,3 @@";
   "+++ b/junk";
   " y";
   "+x"].

(** A command that has located [src/foo.txt], line 11, column 0, on a view
    without settings. *)
Definition located : GitGotoDiff.State :=
  {| GitGotoDiff.column := Some 0%Z;
     GitGotoDiff.file_name := Some "src/foo.txt";
     GitGotoDiff.goto_line := Some 11%Z;
     GitGotoDiff.settings := ∅;
     GitGotoDiff.effects := [] |}.

(** A file system with one file. *)
Definition only_file (p : string) (q : string) : bool := (p =? q)%string.

End MoreExamples.

(** * Properties *)

(** ** Strings *)

Module StrFacts.

Import Py.

Lemma app_cons c s t : String c s +:+ t = String c (s +:+ t).
Proof. reflexivity. Qed.

Lemma app_nil_l t : "" +:+ t = t.
Proof. reflexivity. Qed.

Lemma app_nil_r s : s +:+ "" = s.
Proof. induction s as [|c s IH]; [done|]. by rewrite app_cons, IH. Qed.

Lemma app_assoc s t u : (s +:+ t) +:+ u = s +:+ (t +:+ u).
Proof.
  induction s as [|c s IH]; [done|]. by rewrite !app_cons, IH.
Qed.

Lemma length_app s t :
  String.length (s +:+ t) = String.length s + String.length t.
Proof.
  induction s as [|c s IH]; [done|]. rewrite app_cons. simpl. by rewrite IH.
Qed.

Lemma substring_skip p s n :
  String.substring (String.length p) n (p +:+ s) = String.substring 0 n s.
Proof. induction p as [|c p IH]; [done|]. rewrite app_cons. apply IH. Qed.

Lemma substring_skip_plus p s k n :
  String.substring (String.length p + k) n (p +:+ s)
  = String.substring k n s.
Proof. induction p as [|c p IH]; [done|]. rewrite app_cons. apply IH. Qed.

Lemma substring_prefix s t :
  String.substring 0 (String.length s) (s +:+ t) = s.
Proof.
  induction s as [|c s IH].
  - by destruct t.
  - rewrite app_cons. simpl. by rewrite IH.
Qed.

Lemma substring_from n s t :
  n ≤ String.length s →
  String.substring n (String.length s - n) (s +:+ t) = slice_from n s.
Proof.
  revert s. induction n as [|n IH]; intros s Hn.
  - rewrite Nat.sub_0_r, substring_prefix. by destruct s.
  - destruct s as [|c s]; simpl in Hn; [lia|].
    rewrite app_cons. simpl. apply IH. lia.
Qed.

Lemma prefix_length p s :
  startswith p s = true → String.length p ≤ String.length s.
Proof.
  unfold startswith. revert s.
  induction p as [|c p IH]; intros s H; simpl; [lia|].
  destruct s as [|d s]; simpl in H; [done|].
  destruct (ascii_dec c d); [|done]. apply IH in H. simpl. lia.
Qed.

Lemma startswith_nonempty p s :
  p ≠ "" → startswith p s = true → s ≠ "".
Proof. intros Hp H ->. by destruct p. Qed.

End StrFacts.

(** ** Lines of a buffer *)

Module LineFacts.

Import Py Sublime StrFacts.

Lemma find_line_no_nl l rest start i pt :
  no_nl l = true →
  find_line (l +:+ rest) start i pt
  = find_line rest start (i + String.length l) pt.
Proof.
  revert i. induction l as [|c l IH]; intros i Hl.
  - rewrite app_nil_l. simpl. by rewrite Nat.add_0_r.
  - simpl in Hl. apply andb_true_iff in Hl as [Hc Hl].
    rewrite app_cons. simpl.
    destruct (Ascii.eqb c nl); [done|].
    rewrite IH by done. f_equal. lia.
Qed.

Lemma find_line_end rest start i pt :
  line_end rest → pt ≤ i → find_line rest start i pt = mkRegion start i.
Proof.
  intros [->|[rest' ->]] Hpt; [done|]. simpl.
  rewrite ?Ascii.eqb_refl.
  by destruct (Nat.leb_spec pt i); [|lia].
Qed.

(** Everything up to and including a newline before [pt] is skipped. *)
Lemma find_line_skip p rest start i pt :
  i + String.length p < pt →
  find_line (p +:+ String nl rest) start i pt
  = find_line rest (i + String.length p + 1) (i + String.length p + 1) pt.
Proof.
  revert start i. induction p as [|c p IH]; intros start i Hpt.
  - rewrite app_nil_l. simpl in *. rewrite ?Ascii.eqb_refl.
    destruct (Nat.leb_spec pt i); [lia|].
    f_equal; lia.
  - rewrite app_cons. simpl in *.
    destruct (Ascii.eqb c nl).
    + destruct (Nat.leb_spec pt i); [lia|].
      rewrite IH by lia. f_equal; lia.
    + rewrite IH by lia. f_equal; lia.
Qed.

(** The line at the top of the buffer. *)
Lemma line_first l rest k :
  no_nl l = true → line_end rest → k ≤ String.length l →
  line (l +:+ rest) k = mkRegion 0 (String.length l).
Proof.
  intros Hl Hrest Hk. unfold line.
  rewrite find_line_no_nl by done. by apply find_line_end.
Qed.

(** A line below a newline. *)
Lemma line_below p l rest k :
  no_nl l = true → line_end rest → k ≤ String.length l →
  line (p +:+ String nl (l +:+ rest)) (String.length p + 1 + k)
  = mkRegion (String.length p + 1) (String.length p + 1 + String.length l).
Proof.
  intros Hl Hrest Hk. unfold line.
  rewrite find_line_skip by (simpl; lia). simpl.
  rewrite find_line_no_nl by done. apply find_line_end; [done|lia].
Qed.

Lemma substr_below p l rest :
  substr (p +:+ String nl (l +:+ rest))
    (mkRegion (String.length p + 1) (String.length p + 1 + String.length l))
  = l.
Proof.
  unfold substr, slice. simpl.
  rewrite Nat.min_l, Nat.max_r by lia.
  replace (String.length p + 1) with (String.length (p +:+ String nl ""))
    by (rewrite length_app; simpl; lia).
  replace (p +:+ String nl (l +:+ rest))
    with ((p +:+ String nl "") +:+ (l +:+ rest))
    by (by rewrite app_assoc).
  rewrite substring_skip.
  replace (_ + _ - _) with (String.length l) by lia.
  apply substring_prefix.
Qed.

Lemma substr_below_from p l rest n :
  n ≤ String.length l →
  substr (p +:+ String nl (l +:+ rest))
    (mkRegion (String.length p + 1 + n)
              (String.length p + 1 + String.length l))
  = slice_from n l.
Proof.
  intros Hn. unfold substr, slice. simpl.
  rewrite Nat.min_l, Nat.max_r by lia.
  replace (String.length p + 1 + n)
    with (String.length (p +:+ String nl "") + n)
    by (rewrite length_app; simpl; lia).
  replace (p +:+ String nl (l +:+ rest))
    with ((p +:+ String nl "") +:+ (l +:+ rest))
    by (by rewrite app_assoc).
  rewrite substring_skip_plus.
  replace (_ + _ - _) with (String.length l - n)
    by (rewrite length_app; simpl; lia).
  by apply substring_from.
Qed.

(** The start of a line is never after the point asked for. *)
Lemma find_line_a_le s start i pt :
  start ≤ pt → a (find_line s start i pt) ≤ pt.
Proof.
  revert start i. induction s as [|c s IH]; intros start i Hs; simpl.
  - done.
  - destruct (Ascii.eqb c nl).
    + destruct (Nat.leb_spec pt i); simpl; [done|]. apply IH. lia.
    + by apply IH.
Qed.

Lemma line_a_le text pt : a (line text pt) ≤ pt.
Proof. apply find_line_a_le. lia. Qed.

End LineFacts.

(** ** The backward scan *)

Module ScanFacts.

Import Py Sublime StrFacts LineFacts GitGotoDiff.

Lemma join_nl_cons l ls :
  ls ≠ [] → join_nl (l :: ls) = l +:+ String nl (join_nl ls).
Proof. by destruct ls. Qed.

Lemma join_nl_app ls ms :
  ls ≠ [] → ms ≠ [] →
  join_nl (ls ++ ms) = join_nl ls +:+ String nl (join_nl ms).
Proof.
  intros Hls Hms. induction ls as [|l ls IH]; [done|].
  destruct ls as [|l' ls].
  - simpl app. by rewrite join_nl_cons.
  - change ((l :: l' :: ls) ++ ms) with (l :: ((l' :: ls) ++ ms)).
    rewrite !join_nl_cons by done.
    rewrite IH by done. by rewrite app_assoc.
Qed.

(** A line and the lines below it: the line, then a line end. *)
Lemma join_nl_line_end l below :
  ∃ rest, join_nl (l :: below) = l +:+ rest ∧ line_end rest.
Proof.
  destruct below as [|l' below].
  - exists "". split; [by rewrite app_nil_r|by left].
  - exists (String nl (join_nl (l' :: below))). split; [done|right; eauto].
Qed.

(** The marker branch is the only one that looks at [after_marker]. *)
Lemma scan_body_after_marker l x y s :
  startswith "+++ b/" l = false → scan_body l x s = scan_body l y s.
Proof. intros H. unfold scan_body. by rewrite H. Qed.

(** One iteration on a line below a newline sees exactly that line. *)
Lemma scan_step_below p l rest s :
  no_nl l = true → line_end rest →
  scan_step (p +:+ String nl (l +:+ rest)) (String.length p + 1) s
  = scan_body l (slice_from 6 l) s.
Proof.
  intros Hl Hrest. unfold scan_step.
  pose proof (line_below p l rest 0 Hl Hrest ltac:(lia)) as Hline.
  rewrite Nat.add_0_r in Hline. rewrite Hline.
  rewrite substr_below. cbn [a b].
  destruct (startswith "+++ b/" l) eqn:Hm.
  - apply prefix_length in Hm. simpl in Hm.
    by rewrite substr_below_from.
  - by apply scan_body_after_marker.
Qed.

Lemma scan_lines_cons l above s :
  scan_lines (l :: above) s
  = match scan_body l (slice_from 6 l) s with
    | Break s' => s'
    | Continue s' => scan_lines above s'
    end.
Proof. reflexivity. Qed.

Lemma scan_loop_zero fuel text s : scan_loop fuel text 0 s = Some s.
Proof. by destruct fuel. Qed.

Lemma scan_loop_pos fuel text pt s :
  0 < pt →
  scan_loop (S fuel) text pt s
  = match scan_step text pt s with
    | Break s' => Some s'
    | Continue s' => scan_loop fuel text (a (line text (pt - 1))) s'
    end.
Proof.
  intros Hpt. simpl. by destruct (Nat.ltb_spec 0 pt); [|lia].
Qed.

(** The text of a line, the lines above it and what follows it. *)
Lemma join_nl_snoc_rest ls cur rest :
  ls ≠ [] →
  join_nl (ls ++ [cur]) +:+ rest
  = join_nl ls +:+ String nl (cur +:+ rest).
Proof.
  intros Hls. rewrite (join_nl_app ls [cur]) by done.
  simpl (join_nl [cur]). by rewrite app_assoc, app_cons.
Qed.

Lemma length_join_nl_snoc ls c :
  ls ≠ [] →
  String.length (join_nl (ls ++ [c]))
  = String.length (join_nl ls) + 1 + String.length c.
Proof.
  intros Hls. rewrite (join_nl_app ls [c]) by done.
  rewrite length_app. simpl. lia.
Qed.

(** The loop from the start of the last of the given lines visits them
    upwards and never looks at the first line of the buffer. *)
Lemma scan_loop_lines above :
  ∀ first cur rest s fuel,
    Forall (λ l, no_nl l = true) (first :: above ++ [cur]) →
    line_end rest →
    String.length (join_nl (first :: above)) + 1 ≤ fuel →
    scan_loop fuel (join_nl (first :: above ++ [cur]) +:+ rest)
      (String.length (join_nl (first :: above)) + 1) s
    = Some (scan_lines (cur :: rev above) s).
Proof.
  induction above as [|c above IH] using rev_ind;
    intros first cur rest s fuel Hall Hrest Hfuel.
  - apply Forall_cons in Hall as [Hfirst Hall].
    apply Forall_inv in Hall as Hcur.
    change (first :: [] ++ [cur]) with ([first] ++ [cur]).
    rewrite (join_nl_snoc_rest [first]) by done.
    simpl (join_nl [first]) in *.
    destruct fuel as [|fuel]; [lia|].
    rewrite scan_loop_pos by lia.
    rewrite scan_step_below by done. rewrite scan_lines_cons.
    destruct (scan_body cur (slice_from 6 cur) s) as [s'|s']; [done|].
    replace (String.length first + 1 - 1) with (String.length first) by lia.
    rewrite (line_first first _ (String.length first));
      [|done|right; eauto|lia].
    apply scan_loop_zero.
  - change (first :: (above ++ [c]) ++ [cur])
      with ((first :: above ++ [c]) ++ [cur]) in *.
    change (first :: above ++ [c]) with ((first :: above) ++ [c]) in *.
    apply Forall_app in Hall as [Hall Hcur].
    apply Forall_inv in Hcur.
    pose proof Hall as Hall'.
    apply Forall_app in Hall' as [_ Hc]. apply Forall_inv in Hc.
    rewrite join_nl_snoc_rest by (by destruct above).
    destruct fuel as [|fuel]; [lia|].
    rewrite scan_loop_pos by lia.
    rewrite scan_step_below by done.
    rewrite rev_unit, scan_lines_cons.
    destruct (scan_body cur (slice_from 6 cur) s) as [s'|s']; [done|].
    rewrite length_join_nl_snoc in * by done.
    rewrite join_nl_snoc_rest by done.
    replace (String.length (join_nl (first :: above)) + 1 + String.length c + 1 - 1)
      with (String.length (join_nl (first :: above)) + 1 + String.length c)
      by lia.
    rewrite line_below; [|done|right; eauto|lia]. cbn [a].
    rewrite <- join_nl_snoc_rest by done.
    apply IH; [done|right; eauto|lia].
Qed.

(** [scan] on a buffer given by its lines: the cursor's line [cur], the
    lines [above] it down to the second line of the buffer, and the line
    [first] at offset 0, which the loop condition [pt > 0] leaves out. *)
Theorem scan_of_lines first above cur below :
  Forall (λ l, no_nl l = true) (first :: above ++ [cur]) →
  scan (join_nl (first :: above ++ cur :: below))
    (String.length (join_nl (first :: above)) + 1)
  = Some (scan_lines (cur :: rev above) scan_init).
Proof.
  intros Hall. unfold scan.
  destruct (join_nl_line_end cur below) as (rest & Hrest & Hend).
  change (first :: above ++ cur :: below)
    with ((first :: above) ++ cur :: below).
  rewrite join_nl_app, Hrest by done.
  pose proof (scan_loop_lines above first cur rest scan_init
    (String.length (join_nl (first :: above)) + 1) Hall Hend ltac:(lia)) as H.
  change (first :: above ++ [cur]) with ((first :: above) ++ [cur]) in H.
  rewrite (join_nl_app _ [cur]) in H by done. simpl (join_nl [cur]) in H.
  by rewrite app_assoc, app_cons in H.
Qed.

(** The line of the cursor, for a cursor anywhere on [cur]. *)
Lemma line_of_lines first above cur below k :
  no_nl cur = true → k ≤ String.length cur →
  line (join_nl (first :: above ++ cur :: below))
    (String.length (join_nl (first :: above)) + 1 + k)
  = mkRegion (String.length (join_nl (first :: above)) + 1)
      (String.length (join_nl (first :: above)) + 1 + String.length cur).
Proof.
  intros Hcur Hk.
  destruct (join_nl_line_end cur below) as (rest & Hrest & Hend).
  change (first :: above ++ cur :: below)
    with ((first :: above) ++ cur :: below).
  rewrite join_nl_app, Hrest by done.
  by apply line_below.
Qed.

(** The loop ends: [pt] iterations are enough from any state. *)
Lemma scan_loop_total fuel :
  ∀ text pt s, pt ≤ fuel → is_Some (scan_loop fuel text pt s).
Proof.
  induction fuel as [|fuel IH]; intros text pt s Hpt.
  - replace pt with 0 by lia. by eexists.
  - simpl. destruct (Nat.ltb_spec 0 pt); [|by eexists].
    destruct (scan_step text pt s) as [s'|s']; [by eexists|].
    apply IH. pose proof (line_a_le text (pt - 1)). lia.
Qed.

Theorem scan_total text pt : is_Some (scan text pt).
Proof. by apply scan_loop_total. Qed.

(** Once a hunk header is remembered, only a file marker changes the
    state. *)
Lemma scan_body_hunk_known l x s :
  truthy (hunk_line s) = true → startswith "+++ b/" l = false →
  scan_body l x s = Continue s.
Proof.
  intros Hh Hm. unfold scan_body. rewrite Hh, Hm. simpl.
  by destruct (startswith "@@" l).
Qed.

Lemma scan_lines_no_marker ls ms s :
  truthy (hunk_line s) = true →
  Forall (λ l, startswith "+++ b/" l = false) ls →
  scan_lines (ls ++ ms) s = scan_lines ms s.
Proof.
  intros Hh Hls. induction Hls as [|l ls Hl _ IH]; [done|].
  change ((l :: ls) ++ ms) with (l :: (ls ++ ms)).
  by rewrite scan_lines_cons, scan_body_hunk_known.
Qed.

Lemma scan_lines_hunk_known ls s :
  truthy (hunk_line s) = true →
  hunk_line (scan_lines ls s) = hunk_line s ∧
  line_offset (scan_lines ls s) = line_offset s.
Proof.
  intros Hh. induction ls as [|l ls IH]; [done|].
  rewrite scan_lines_cons. unfold scan_body. rewrite Hh. simpl negb.
  cbn [andb].
  destruct (startswith "@@" l); [done|].
  by destruct (startswith "+++ b/" l).
Qed.

(** Without a file marker among the lines the scan runs to the top and
    leaves the file name as it was. *)
Lemma scan_lines_no_file_marker ls s :
  Forall (λ l, startswith "+++ b/" l = false) ls →
  scan_file_name (scan_lines ls s) = scan_file_name s.
Proof.
  intros Hls. revert s. induction Hls as [|l ls Hl _ IH]; intros s; [done|].
  rewrite scan_lines_cons. unfold scan_body. rewrite Hl.
  destruct (startswith "@@" l).
  - destruct (negb (truthy (hunk_line s))); by rewrite IH.
  - destruct (negb (truthy (hunk_line s)) && negb (startswith "-" l));
      by rewrite IH.
Qed.

(** Without a header among the lines no header is remembered. *)
Lemma scan_lines_no_header ls s :
  Forall (λ l, startswith "@@" l = false) ls →
  hunk_line (scan_lines ls s) = hunk_line s.
Proof.
  intros Hls. revert s. induction Hls as [|l ls Hl _ IH]; intros s; [done|].
  rewrite scan_lines_cons. unfold scan_body. rewrite Hl.
  destruct (startswith "+++ b/" l); [done|].
  destruct (negb (truthy (hunk_line s)) && negb (startswith "-" l));
    by rewrite IH.
Qed.

End ScanFacts.

(** ** GitDiff: staging, diff and reset *)

Module GitDiffFacts.

Import Py GitDiff Examples.

(** C1 (the code does otherwise).  When the status output names untracked
    files and the diff output is empty, [run] starts the status, add and
    diff commands, shows "No output" and returns: [diff_done] leaves at
    its first [return], before [reset_untracked_files], so no reset
    command is started and the files stay staged. *)
Theorem C1_empty_output_skips_reset settings file git ignore_ws st :
  diff_untracked_files settings = true →
  0 < List.length (untracked (git untracked_files_command)) →
  (strip (git (diff_command file ignore_ws)) =? "")%string = true →
  run settings file git ignore_ws st
  = (Ok tt,
     {| self := {| ignore_whitespace := ignore_ws;
                   empty_stages :=
                     Some (untracked (git untracked_files_command)) |};
        events := events st ++
          [RunCommand untracked_files_command;
           RunCommand ["git"; "add"; "."; "-N"];
           RunCommand (diff_command file ignore_ws);
           Panel "No output" None] |}).
Proof.
  intros Hs Hn He.
  unfold run, stage_untracked_files, stage_untracked_files_result,
    continue_diff, run_command, diff_done, mbind, M_bind, get_self,
    set_self, emit. simpl.
  rewrite Hs. simpl.
  destruct (Nat.ltb_spec 0
    (List.length (untracked (git untracked_files_command)))); [|lia].
  simpl. rewrite He. simpl.
  by rewrite <- !app_assoc.
Qed.

Lemma C1_empty_output_skips_reset_witness :
  diff_untracked_files settings_staging = true ∧
  0 < List.length
        (untracked (git_answers one_untracked "" untracked_files_command)) ∧
  (strip (git_answers one_untracked "" (diff_command "a.txt" false))
     =? "")%string = true ∧
  run settings_staging "a.txt" (git_answers one_untracked "") false fresh
  = (Ok tt,
     {| self := {| ignore_whitespace := false;
                   empty_stages := Some ["new.txt"] |};
        events :=
          [RunCommand ["git"; "status"; "-uall"; "--porcelain"];
           RunCommand ["git"; "add"; "."; "-N"];
           RunCommand ["git"; "diff"; "--no-color"; "--"; "a.txt"];
           Panel "No output" None] |}).
Proof.
  split; [reflexivity|]. split; [vm_compute; lia|].
  split; [reflexivity|].
  apply (C1_empty_output_skips_reset settings_staging "a.txt"
           (git_answers one_untracked "") false fresh);
    [reflexivity | vm_compute; lia | reflexivity].
Defined.

(** C2 (the code does otherwise).  With staging enabled and a status
    output without any [??] line, [stage_untracked_files_result] has no
    branch that goes on: the status command is the only command started,
    [git diff] never runs and nothing is shown. *)
Theorem C2_no_untracked_no_diff settings file git ignore_ws st :
  diff_untracked_files settings = true →
  List.length (untracked (git untracked_files_command)) = 0 →
  run settings file git ignore_ws st
  = (Ok tt,
     {| self := {| ignore_whitespace := ignore_ws;
                   empty_stages :=
                     Some (untracked (git untracked_files_command)) |};
        events := events st ++ [RunCommand untracked_files_command] |}).
Proof.
  intros Hs Hn.
  unfold run, stage_untracked_files, stage_untracked_files_result,
    run_command, mbind, M_bind, get_self, set_self, emit. simpl.
  rewrite Hs. simpl. by rewrite Hn.
Qed.

Lemma C2_no_untracked_no_diff_witness :
  diff_untracked_files settings_staging = true ∧
  List.length
    (untracked (git_answers one_modified "x" untracked_files_command)) = 0 ∧
  run settings_staging "a.txt" (git_answers one_modified "x") false fresh
  = (Ok tt,
     {| self := {| ignore_whitespace := false; empty_stages := Some [] |};
        events :=
          [RunCommand ["git"; "status"; "-uall"; "--porcelain"]] |}).
Proof.
  split; [reflexivity|]. split; [reflexivity|].
  apply (C2_no_untracked_no_diff settings_staging "a.txt"
           (git_answers one_modified "x") false fresh);
    reflexivity.
Defined.

(** C10 (the code does otherwise).  With staging disabled nothing assigns
    [self.empty_stages]; on a command object that has not staged before,
    [diff_done] shows the diff and then raises AttributeError in
    [reset_untracked_files]. *)
Theorem C10_reset_without_stage_raises settings file git ignore_ws st :
  diff_untracked_files settings = false →
  (strip (git (diff_command file ignore_ws)) =? "")%string = false →
  empty_stages (self st) = None →
  run settings file git ignore_ws st
  = (Raise AttributeError,
     {| self := {| ignore_whitespace := ignore_ws; empty_stages := None |};
        events := events st ++
          [RunCommand (diff_command file ignore_ws);
           display settings (git (diff_command file ignore_ws))] |}).
Proof.
  intros Hs He Hn.
  unfold run, continue_diff, run_command, diff_done,
    reset_untracked_files, read_empty_stages, display, mbind, M_bind,
    get_self, set_self, emit, raise. simpl.
  rewrite Hs. simpl. rewrite He, Hn.
  destruct (diff_panel settings); simpl; by rewrite <- !app_assoc.
Qed.

Lemma C10_reset_without_stage_raises_witness :
  diff_untracked_files settings_plain = false ∧
  (strip (git_answers "" "x" (diff_command "a.txt" false)) =? "")%string
    = false ∧
  empty_stages (self fresh) = None ∧
  run settings_plain "a.txt" (git_answers "" "x") false fresh
  = (Raise AttributeError,
     {| self := {| ignore_whitespace := false; empty_stages := None |};
        events :=
          [RunCommand ["git"; "diff"; "--no-color"; "--"; "a.txt"];
           Scratch "x" "Git Diff" "Packages/Diff/Diff.tmLanguage"] |}).
Proof.
  split; [reflexivity|]. split; [reflexivity|]. split; [reflexivity|].
  apply (C10_reset_without_stage_raises settings_plain "a.txt"
           (git_answers "" "x") false fresh);
    reflexivity.
Defined.

End GitDiffFacts.

(** ** The hunk header *)

Module HunkFacts.

Import Py StrFacts GitGotoDiff Spec.


Lemma literal_inv lit : ∀ s r, literal lit s = Some r → s = lit +:+ r.
Proof.
  induction lit as [|c lit IH]; intros s r H.
  - destruct s; simpl in H; by inversion H.
  - destruct s as [|d s]; simpl in H; [done|].
    destruct (Ascii.eqb_spec c d) as [->|]; [|done].
    rewrite app_cons. f_equal. by apply IH.
Qed.


Lemma span_digits_inv s : ∀ d r,
  span_digits s = (d, r) →
  s = d +:+ r ∧ all_digits d = true ∧ no_digit_ahead r.
Proof.
  induction s as [|c s IH]; intros d r H; simpl in H.
  - by inversion H.
  - destruct (is_digit c) eqn:Hc.
    + destruct (span_digits s) as [d' r'] eqn:Hs. inversion H; subst.
      destruct (IH d' r eq_refl) as (-> & Hd & Hr).
      rewrite app_cons. simpl. by rewrite Hc, Hd.
    + inversion H; subst. by rewrite app_nil_l.
Qed.


Lemma digits1_inv s d r :
  digits1 s = Some (d, r) → s = d +:+ r ∧ number d ∧ no_digit_ahead r.
Proof.
  unfold digits1. destruct (span_digits s) as [d' r'] eqn:Hs.
  destruct (String.eqb_spec d' ""); [done|].
  intros H; inversion H; subst.
  by destruct (span_digits_inv _ _ _ Hs) as (-> & Hd & Hr).
Qed.


Lemma opt_len_inv s o r :
  opt_len s = (o, r) → s = len_text o +:+ r ∧ len_ok o.
Proof.
  unfold opt_len. destruct (literal "," s) as [s'|] eqn:Hl.
  - destruct (digits1 s') as [[d r']|] eqn:Hd.
    + intros H; inversion H; subst.
      apply literal_inv in Hl as ->.
      apply digits1_inv in Hd as (-> & Hd & _).
      simpl len_text. by rewrite app_assoc.
    + intros H; by inversion H.
  - intros H; by inversion H.
Qed.




(** Whatever is matched is a well-formed header. *)
Lemma match_hunk_sound line m :
  match_hunk line = Some m →
  well_formed m ∧ ∃ rest, line = header_text m rest.
Proof.
  unfold match_hunk. intros H.
  apply bind_Some in H as (r0 & E0 & H).
  apply bind_Some in H as ([g1 r1] & E1 & H).
  destruct (opt_len r1) as [g3 r2] eqn:E2.
  apply bind_Some in H as (r3 & E3 & H).
  apply bind_Some in H as ([g4 r4] & E4 & H).
  destruct (opt_len r4) as [g6 r5] eqn:E5.
  apply bind_Some in H as (r6 & E6 & H).
  inversion H; subst; clear H.
  apply literal_inv in E0 as ->.
  apply digits1_inv in E1 as (-> & H1 & _).
  apply opt_len_inv in E2 as (-> & H3).
  apply literal_inv in E3 as ->.
  apply digits1_inv in E4 as (-> & H4 & _).
  apply opt_len_inv in E5 as (-> & H6).
  apply literal_inv in E6 as ->.
  split; [done|]. by exists r6.
Qed.

(** [int] reads a decimal numeral: appending a digit multiplies by ten
    and adds the digit. *)
Lemma int_acc_snoc s : ∀ acc c,
  int_acc acc (s +:+ String c "") = (10 * int_acc acc s + digit_val c)%Z.
Proof.
  induction s as [|d s IH]; intros acc c; [done|].
  rewrite app_cons. simpl. apply IH.
Qed.

Lemma int_snoc s c :
  int (s +:+ String c "") = (10 * int s + digit_val c)%Z.
Proof. apply int_acc_snoc. Qed.

Lemma digit_val_digit_of c : is_digit c = true → digit_val c = digit_of c.
Proof.
  destruct c as [[] [] [] [] [] [] [] []]; try discriminate; reflexivity.
Qed.

Lemma int_acc_decimal_value s : ∀ acc,
  all_digits s = true →
  int_acc acc s
  = (acc * 10 ^ Z.of_nat (String.length s) + decimal_value s)%Z.
Proof.
  induction s as [|c s IH]; intros acc Hd.
  - simpl. lia.
  - cbn [all_digits] in Hd. apply andb_true_iff in Hd as [Hc Hs].
    cbn [int_acc decimal_value String.length].
    rewrite IH, digit_val_digit_of by done.
    rewrite Nat2Z.inj_succ, Z.pow_succ_r by lia. ring.
Qed.

(** [int] of a string of digits is the number the string denotes. *)
Lemma int_decimal_value s : all_digits s = true → int s = decimal_value s.
Proof.
  intros Hd. unfold int. rewrite int_acc_decimal_value by done. lia.
Qed.

End HunkFacts.

(** ** GitGotoDiff: from the scan to the opened file *)

Module GotoFacts.

Import Py StrFacts LineFacts ScanFacts HunkFacts GitGotoDiff Spec.

Ltac unfold_monad :=
  repeat progress
    unfold mbind, M_bind, mret, M_ret, raise, get, emit, set_column,
      set_file_name, set_goto_line, settings_get, settings_set, attr,
      re_match, os_path_join, os_path_isfile in *.

Lemma join_empty_base rel : OsPath.join "" rel = rel.
Proof. unfold OsPath.join. by destruct (startswith "/" rel). Qed.

Lemma truthy_Some_false (d : string) : truthy (Some d) = false → d = "".
Proof. simpl. by destruct (String.eqb_spec d ""). Qed.

Section WithEnvironment.

Variable isfile : string → bool.
Variable git_root : string → option string.

(** *** [on_path_confirmed] *)

Lemma on_path_confirmed_ok base st rel gl col :
  file_name st = Some rel → goto_line st = Some gl →
  column st = Some col →
  on_path_confirmed base st
  = (Ok tt,
     {| column := Some col; file_name := Some rel; goto_line := Some gl;
        settings :=
          if decide (settings st !! "git_root_dir" = Some base)
          then settings st
          else <["git_root_dir" := base]> (settings st);
        effects := effects st ++
          settings_write (settings st !! "git_root_dir") base ++
          [OpenFile (OsPath.join base rel);
           GotoXY (OsPath.join base rel) gl col] |}).
Proof.
  intros Hf Hg Hc. unfold on_path_confirmed, settings_write.
  unfold_monad. destruct st as [c f g sett eff]; simpl in *; subst.
  destruct (decide (sett !! "git_root_dir" = Some base)) as [He|Hne].
  - rewrite decide_False by (by intros Hx; apply Hx).
    unfold with_effect. simpl. by rewrite <- !List.app_assoc.
  - rewrite decide_True by done.
    unfold with_effect, with_setting. simpl.
    by rewrite <- !List.app_assoc.
Qed.

(** *** [resolve] *)

Lemma join_prefill cand rel :
  OsPath.join (prefill cand) rel = full_path cand rel.
Proof.
  destruct cand as [d|]; simpl prefill; unfold full_path.
  - destruct (truthy (Some d)) eqn:Ht; [done|].
    apply truthy_Some_false in Ht as ->. apply join_empty_base.
  - apply join_empty_base.
Qed.

Lemma resolve_no_file_name v st :
  file_name st = None →
  ∃ e, resolve isfile git_root v st = (Raise e, st).
Proof.
  intros Hf. unfold resolve. unfold_monad.
  destruct (truthy (settings st !! "git_root_dir")); simpl.
  - destruct (settings st !! "git_root_dir") as [d|]; rewrite ?Hf.
    + destruct (negb (d =? "")%string); rewrite ?Hf; by eexists.
    + by eexists.
  - destruct (Sublime.open_folder v) as [w|]; simpl; rewrite ?Hf;
      [|by eexists].
    destruct (negb (w =? "")%string); rewrite ?Hf; [|by eexists].
    destruct (git_root w) as [d|]; rewrite ?Hf; [|by eexists].
    destruct (negb (d =? "")%string); rewrite ?Hf; by eexists.
Qed.

(** With a file name, [resolve] checks the composed path and either
    confirms the candidate base itself or asks for one. *)
Lemma resolve_file_name v st rel :
  file_name st = Some rel →
  let cand := candidate_base git_root v (settings st !! "git_root_dir") in
  resolve isfile git_root v st
  = if isfile (full_path cand rel)
    then on_path_confirmed (prefill cand) st
    else (Ok tt,
          with_effect (ShowInputPanel (caption rel) (prefill cand)) st).
Proof.
  intros Hf. unfold resolve, candidate_base, window_root_hint, full_path,
    caption.
  unfold mbind at 1, M_bind at 1, settings_get at 1.
  destruct (truthy (settings st !! "git_root_dir")) eqn:Hst.
  - destruct (settings st !! "git_root_dir") as [d|]; [|done].
    simpl negb. cbv iota. unfold_monad. rewrite Hf, Hst. simpl.
    by destruct (isfile (OsPath.join d rel)).
  - simpl negb. cbv iota.
    destruct (Sublime.open_folder v) as [w|].
    + destruct (truthy (Some w)).
      * destruct (git_root w) as [d|].
        -- destruct (truthy (Some d)) eqn:Hd.
           ++ unfold_monad. rewrite Hf. simpl.
              by destruct (isfile (OsPath.join d rel)).
           ++ apply truthy_Some_false in Hd as ->.
              unfold_monad. rewrite Hf. simpl.
              by destruct (isfile rel).
        -- unfold_monad. rewrite Hf. simpl. by destruct (isfile rel).
      * unfold_monad. rewrite Hf. simpl. by destruct (isfile rel).
    + unfold_monad. rewrite Hf. simpl. by destruct (isfile rel).
Qed.

(** *** After the scan *)

Lemma after_scan_no_hunk v s st :
  hunk_line s = None →
  after_scan isfile git_root v s st
  = (Raise TypeError, with_file_name (scan_file_name s) st).
Proof. intros Hh. unfold after_scan. unfold_monad. by rewrite Hh. Qed.


Lemma after_scan_match v s st h m :
  hunk_line s = Some h → match_hunk h = Some m →
  after_scan isfile git_root v s st
  = resolve isfile git_root v
      (with_goto_line (int (group4 m) + line_offset s - 1)
         (with_file_name (scan_file_name s) st)).
Proof.
  intros Hh Hm. unfold after_scan. unfold_monad. by rewrite Hh, Hm.
Qed.

(** *** [run] *)

Lemma run_not_applicable v st :
  applicable v = false → run isfile git_root v st = Some (Ok tt, st).
Proof.
  unfold applicable, run. intros H.
  apply orb_false_iff in H as [-> ->]. done.
Qed.

Lemma run_applicable v st :
  applicable v = true →
  run isfile git_root v st
  = (λ s, after_scan isfile git_root v s
            (with_column (cursor_column v) st))
    <$> scan (Sublime.text v) (cursor_line_start v).
Proof.
  unfold applicable, run, cursor_column, cursor_line_start. intros H.
  destruct (contains "markup.inserted.diff" _);
    destruct (contains "markup.deleted.diff" _); try done;
    simpl; by destruct (scan _ _).
Qed.

(** [run] always comes back: the scan never needs more iterations than
    it is given. *)
Theorem run_total v st : is_Some (run isfile git_root v st).
Proof.
  destruct (applicable v) eqn:Ha.
  - rewrite run_applicable by done.
    by destruct (scan_total (Sublime.text v) (cursor_line_start v))
      as [s ->].
  - rewrite run_not_applicable by done. by eexists.
Qed.

(** A run that finds a header the pattern matches stores the column,
    the file name of the scan and the target line, whatever happens
    afterwards; with a file name it also returns normally. *)
Lemma run_match v st s h m :
  applicable v = true →
  scan (Sublime.text v) (cursor_line_start v) = Some s →
  hunk_line s = Some h → match_hunk h = Some m →
  ∃ r st',
    run isfile git_root v st = Some (r, st') ∧
    column st' = Some (cursor_column v) ∧
    file_name st' = scan_file_name s ∧
    goto_line st' = Some (int (group4 m) + line_offset s - 1)%Z ∧
    (is_Some (scan_file_name s) → r = Ok tt).
Proof.
  intros Ha Hs Hh Hm. rewrite run_applicable, Hs by done. simpl.
  rewrite (after_scan_match _ _ _ h m) by done.
  destruct (scan_file_name s) as [rel|] eqn:Hf.
  - rewrite (resolve_file_name _ _ rel) by done. cbv zeta.
    destruct (isfile _).
    + erewrite on_path_confirmed_ok by done.
      eexists _, _. split; [done|]. by repeat split.
    + eexists _, _. split; [done|]. by repeat split.
  - destruct (resolve_no_file_name v
      (with_goto_line (int (group4 m) + line_offset s - 1)
         (with_file_name None (with_column (cursor_column v) st))) eq_refl)
      as [e ->].
    eexists _, _. split; [done|]. by repeat split.
Qed.

End WithEnvironment.

End GotoFacts.

(** ** Navigation: failures, header parsing and path resolution *)

Module Navigation.

Import Py StrFacts LineFacts ScanFacts HunkFacts GitGotoDiff Spec GotoFacts.
Import Examples.


Section Claims.

Variable isfile : string → bool.
Variable git_root : string → option string.

(** C5 (the code does otherwise).  When the scan ends on a file marker
    without having met a hunk header, [hunk_line] is still [None] and
    [re.match] is called on it: the run ends in a TypeError, the state
    holds the column and the file name, and no "No hunk info" message
    or any other effect is produced. *)
Theorem C5_no_hunk_header_raises v st s rel :
  applicable v = true →
  scan (Sublime.text v) (cursor_line_start v) = Some s →
  scan_file_name s = Some rel →
  hunk_line s = None →
  run isfile git_root v st
  = Some (Raise TypeError,
          with_file_name (Some rel) (with_column (cursor_column v) st)).
Proof.
  intros Ha Hs Hf Hh. rewrite run_applicable, Hs by done. simpl.
  by rewrite after_scan_no_hunk, Hf.
Qed.

(** C6 (the code does otherwise).  When the scan reaches the top without
    a file marker, [self.file_name] stays [None].  Unless the remembered
    header fails to match, the run ends in an exception: from [re.match]
    when there is no header either, from [os.path.join] or
    [os.path.isfile] on [None] when the header matches.  Nothing is
    shown and no setting is written. *)
Theorem C6_no_file_marker_raises v st s :
  applicable v = true →
  scan (Sublime.text v) (cursor_line_start v) = Some s →
  scan_file_name s = None →
  (hunk_line s = None
   ∨ ∃ h m, hunk_line s = Some h ∧ match_hunk h = Some m) →
  ∃ e st',
    run isfile git_root v st = Some (Raise e, st') ∧
    file_name st' = None ∧
    effects st' = effects st ∧ settings st' = settings st.
Proof.
  intros Ha Hs Hf Hh. rewrite run_applicable, Hs by done. simpl.
  destruct Hh as [Hh|(h & m & Hh & Hm)].
  - rewrite after_scan_no_hunk, Hf by done. by eexists _, _.
  - rewrite (after_scan_match _ _ _ _ _ h m) by done. rewrite Hf.
    destruct (resolve_no_file_name isfile git_root v
      (with_goto_line (int (group4 m) + line_offset s - 1)
         (with_file_name None (with_column (cursor_column v) st))) eq_refl)
      as [e ->].
    by eexists _, _.
Qed.


(** C8.  Once the scan has a file name and the header matches, the run
    composes the path from the candidate base and the relative path.
    If that file exists there is no prompt: the base is confirmed at
    once and the file is opened at the target.  If not, the only effect
    is the prompt, with the relative path in its caption and the
    candidate base, or the empty string, as its text. *)
Theorem C8_prompt_iff_missing v st s h m rel :
  applicable v = true →
  scan (Sublime.text v) (cursor_line_start v) = Some s →
  scan_file_name s = Some rel →
  hunk_line s = Some h → match_hunk h = Some m →
  let stored := settings st !! "git_root_dir" in
  let cand := candidate_base git_root v stored in
  let full := full_path cand rel in
  let target := (int (group4 m) + line_offset s - 1)%Z in
  ∃ st',
    run isfile git_root v st = Some (Ok tt, st') ∧
    effects st' = effects st ++
      (if isfile full
       then settings_write stored (prefill cand) ++
            [OpenFile full; GotoXY full target (cursor_column v)]
       else [ShowInputPanel (caption rel) (prefill cand)]).
Proof.
  intros Ha Hs Hf Hh Hm stored cand full target.
  rewrite run_applicable, Hs by done. simpl.
  rewrite (after_scan_match _ _ _ _ _ h m) by done.
  fold target.
  set (st1 := with_goto_line target _).
  assert (settings st1 = settings st) as Hset by done.
  assert (effects st1 = effects st) as Heff by done.
  rewrite (resolve_file_name _ _ _ _ rel) by done. cbv zeta.
  rewrite Hset. fold stored cand full.
  destruct (isfile full).
  - rewrite (on_path_confirmed_ok _ _ rel target (cursor_column v))
      by done.
    eexists. split; [done|]. simpl.
    fold stored. by rewrite join_prefill.
  - by eexists.
Qed.

End Claims.

(** C9.  A confirmation with the stored base leaves the settings as they
    are and produces no settings write; a confirmation with any other
    base stores it under [git_root_dir] with one write.  Every other key
    keeps its value, and so do the attributes of the command. *)
Theorem C9_base_written_iff_changed base st rel gl col :
  file_name st = Some rel → goto_line st = Some gl →
  column st = Some col →
  let stored := settings st !! "git_root_dir" in
  let path := OsPath.join base rel in
  ∃ st',
    on_path_confirmed base st = (Ok tt, st') ∧
    (stored = Some base →
       settings st' = settings st ∧
       effects st' = effects st ++ [OpenFile path; GotoXY path gl col]) ∧
    (stored ≠ Some base →
       settings st' = <["git_root_dir" := base]> (settings st) ∧
       effects st' = effects st ++
         [SettingsSet "git_root_dir" base; OpenFile path;
          GotoXY path gl col]) ∧
    (∀ key, key ≠ "git_root_dir" → settings st' !! key = settings st !! key) ∧
    column st' = column st ∧ file_name st' = file_name st ∧
    goto_line st' = goto_line st.
Proof.
  intros Hf Hg Hc stored path.
  rewrite (on_path_confirmed_ok base st rel gl col) by done.
  eexists. split; [done|]. simpl. fold stored. unfold settings_write.
  destruct (decide (stored = Some base)) as [He|Hne].
  - repeat split; try done; by rewrite ?Hc, ?Hf, ?Hg.
  - repeat split; try done; try by rewrite ?Hc, ?Hf, ?Hg.
    intros key Hk. by rewrite lookup_insert_ne.
Qed.

End Navigation.

(** ** Navigation: the target line *)

Module Target.

Import Py StrFacts LineFacts ScanFacts HunkFacts GitGotoDiff Spec GotoFacts.
Import Examples.

Lemma forallb_Forall {A} (f : A → bool) l :
  forallb f l = true → Forall (λ x, f x = true) l.
Proof.
  intros H. apply Forall_forall. intros x Hx.
  apply list_elem_of_In in Hx. by apply (proj1 (forallb_forall f l) H).
Qed.

(** A cursor [k] characters into the line [cur]: where the scan starts,
    the column, and the lines the scan visits. *)
Lemma cursor_on_line v first above cur below k :
  Sublime.text v = join_nl (first :: above ++ cur :: below) →
  Sublime.sel0_a v = String.length (join_nl (first :: above)) + 1 + k →
  k ≤ String.length cur →
  forallb no_nl (first :: above ++ [cur]) = true →
  cursor_column v = (Z.of_nat k - 1)%Z ∧
  scan (Sublime.text v) (cursor_line_start v)
  = Some (scan_lines (cur :: rev above) scan_init).
Proof.
  intros Ht Hsel Hk Hall. apply forallb_Forall in Hall.
  assert (no_nl cur = true) as Hcur.
  { apply Forall_cons in Hall as [_ Hall].
    apply Forall_app in Hall as [_ Hall]. by apply Forall_inv in Hall. }
  unfold cursor_column, cursor_line_start. rewrite Ht, Hsel.
  rewrite line_of_lines by done. cbn [Sublime.a].
  split; [lia|]. by apply scan_of_lines.
Qed.

(** An added line that is not taken for a file marker counts one. *)
Lemma scan_body_added content x s :
  is_marker (String "+" content) = false →
  truthy (hunk_line s) = false →
  scan_body (String "+" content) x s
  = Continue {| scan_file_name := scan_file_name s;
                hunk_line := hunk_line s;
                line_offset := line_offset s + 1 |}.
Proof.
  unfold is_marker, scan_body. intros Hm Hh. rewrite Hm, Hh.
  reflexivity.
Qed.

(** The first header met is remembered. *)
Lemma scan_body_header hdr x s :
  startswith "@@" hdr = true → truthy (hunk_line s) = false →
  scan_body hdr x s
  = Continue {| scan_file_name := scan_file_name s;
                hunk_line := Some hdr;
                line_offset := line_offset s |}.
Proof. unfold scan_body. intros Hm Hh. by rewrite Hm, Hh. Qed.

Section Claims.

Variable isfile : string → bool.
Variable git_root : string → option string.

(** C3, as the code has it.  In a buffer where the line
    [+++ b/src/foo.txt] is not the first line and is followed, after any
    lines that are not file markers, by the header [@@ -10,2 +10,3 @@],
    the line [ context] and the line [+added], a run with the cursor just
    after the [+] of [+added] returns with file name [src/foo.txt],
    target line 11 and column 0. *)
Theorem C3_end_to_end v st first pre mid post :
  forallb no_nl (first :: pre ++ mid) = true →
  forallb (λ l, negb (is_marker l)) mid = true →
  Sublime.text v
  = join_nl (first ::
      (pre ++ ["+++ b/src/foo.txt"] ++ mid ++
         ["@@ -10,2 +10,3 @@"; " context"]) ++ "+added" :: post) →
  Sublime.sel0_a v
  = String.length (join_nl (first ::
      pre ++ ["+++ b/src/foo.txt"] ++ mid ++
        ["@@ -10,2 +10,3 @@"; " context"])) + 1 + 1 →
  contains "markup.inserted.diff"
    (Sublime.scope_name v (Sublime.sel0_a v)) = true →
  ∃ st',
    run isfile git_root v st = Some (Ok tt, st') ∧
    file_name st' = Some "src/foo.txt" ∧
    goto_line st' = Some 11%Z ∧
    column st' = Some 0%Z.
Proof.
  intros Hnl Hmid Ht Hsel Hscope.
  assert (applicable v = true) as Ha
    by (unfold applicable; by rewrite Hscope).
  destruct (cursor_on_line v first
    (pre ++ ["+++ b/src/foo.txt"] ++ mid ++
       ["@@ -10,2 +10,3 @@"; " context"]) "+added" post 1 Ht Hsel)
    as [Hcol Hscan].
  { simpl. lia. }
  { cbn [forallb] in *. rewrite forallb_app in Hnl.
    apply andb_true_iff in Hnl as [H1 Hnl].
    apply andb_true_iff in Hnl as [H2 H3].
    rewrite !forallb_app. cbn [forallb]. by rewrite H1, H2, H3. }
  rewrite !rev_app_distr in Hscan. cbn [rev app] in Hscan.
  rewrite <- !List.app_assoc in Hscan. cbn [app] in Hscan.
  rewrite scan_lines_cons in Hscan.
  change (scan_body "+added" _ scan_init)
    with (Continue {| scan_file_name := None; hunk_line := None;
                      line_offset := 1 |}) in Hscan.
  cbv beta iota in Hscan. rewrite scan_lines_cons in Hscan.
  change (scan_body " context" _ _)
    with (Continue {| scan_file_name := None; hunk_line := None;
                      line_offset := 2 |}) in Hscan.
  cbv beta iota in Hscan. rewrite scan_lines_cons in Hscan.
  change (scan_body "@@ -10,2 +10,3 @@" _ _)
    with (Continue {| scan_file_name := None;
                      hunk_line := Some "@@ -10,2 +10,3 @@";
                      line_offset := 2 |}) in Hscan.
  cbv beta iota in Hscan.
  rewrite scan_lines_no_marker in Hscan; [|done|].
  2:{ apply Forall_forall. intros l Hl.
      apply list_elem_of_In, in_rev in Hl.
      apply (proj1 (forallb_forall _ _) Hmid) in Hl.
      by apply negb_true_iff in Hl. }
  rewrite scan_lines_cons in Hscan.
  change (scan_body "+++ b/src/foo.txt" _ _)
    with (Break {| scan_file_name := Some "src/foo.txt";
                   hunk_line := Some "@@ -10,2 +10,3 @@";
                   line_offset := 2 |}) in Hscan.
  cbv beta iota in Hscan.
  destruct (run_match isfile git_root v st _ "@@ -10,2 +10,3 @@"
    {| group1 := "10"; group3 := Some "2"; group4 := "10";
       group6 := Some "3" |} Ha Hscan eq_refl eq_refl)
    as (r & st' & Hrun & Hc & Hf & Hg & Hr).
  exists st'. rewrite Hrun, Hr by (by eexists).
  split; [done|]. split; [done|]. split; [done|].
  by rewrite Hc, Hcol.
Qed.

(** C4, as the code has it.  With a hunk header that matches the pattern
    and is not the first line of the buffer, and the cursor on an added
    line directly below it, the scan counts that line itself, so
    [line_offset] is 1, and the target line
    [new_start + line_offset - 1] is the header's new start. *)
Theorem C4_first_added_line v st first above hdr content below k m :
  forallb no_nl (first :: (above ++ [hdr]) ++ [String "+" content])
    = true →
  startswith "@@" hdr = true →
  is_marker (String "+" content) = false →
  Sublime.text v
  = join_nl (first :: (above ++ [hdr]) ++ String "+" content :: below) →
  Sublime.sel0_a v
  = String.length (join_nl (first :: above ++ [hdr])) + 1 + k →
  k ≤ String.length (String "+" content) →
  applicable v = true →
  match_hunk hdr = Some m →
  ∃ s r st',
    scan (Sublime.text v) (cursor_line_start v) = Some s ∧
    hunk_line s = Some hdr ∧
    line_offset s = 1%Z ∧
    run isfile git_root v st = Some (r, st') ∧
    goto_line st'
    = Some (decimal_value (group4 m) + line_offset s - 1)%Z ∧
    goto_line st' = Some (decimal_value (group4 m)).
Proof.
  intros Hnl Hhdr Hmark Ht Hsel Hk Ha Hm.
  destruct (cursor_on_line v first (above ++ [hdr]) (String "+" content)
    below k Ht Hsel Hk Hnl) as [Hcol Hscan].
  rewrite rev_unit in Hscan. rewrite scan_lines_cons in Hscan.
  rewrite scan_body_added in Hscan by done.
  rewrite scan_lines_cons in Hscan.
  rewrite scan_body_header in Hscan by done.
  set (s1 := {| scan_file_name := _; hunk_line := Some hdr;
                line_offset := _ |}) in Hscan.
  assert (truthy (hunk_line s1) = true) as Hknown.
  { simpl. apply negb_true_iff, String.eqb_neq.
    by apply (startswith_nonempty "@@"). }
  destruct (scan_lines_hunk_known (rev above) s1 Hknown) as [Hh Ho].
  destruct (run_match isfile git_root v st _ hdr m Ha Hscan Hh Hm)
    as (r & st' & Hrun & _ & _ & Hg & _).
  apply match_hunk_sound in Hm as [(_ & _ & [_ Hd] & _) _].
  rewrite int_decimal_value in Hg by done.
  eexists _, r, st'. split; [exact Hscan|].
  split; [done|]. split; [done|]. split; [done|].
  split; [done|]. rewrite Hg, Ho. simpl. f_equal. lia.
Qed.

End Claims.

End Target.

(** ** The theorems at the example inputs *)

Module Instances.

Import Py GitGotoDiff Spec Examples.

Lemma C3_end_to_end_witness :
  forallb no_nl
    ("diff --git a/src/foo.txt b/src/foo.txt" :: ["--- a/src/foo.txt"] ++ [])
    = true ∧
  contains "markup.inserted.diff"
    (Sublime.scope_name (view_at diff_foo 5 1)
       (Sublime.sel0_a (view_at diff_foo 5 1))) = true ∧
  ∃ st',
    run no_file repo_root (view_at diff_foo 5 1) (fresh ∅)
      = Some (Ok tt, st') ∧
    file_name st' = Some "src/foo.txt" ∧
    goto_line st' = Some 11%Z ∧
    column st' = Some 0%Z.
Proof.
  split; [reflexivity|]. split; [reflexivity|].
  apply (Target.C3_end_to_end no_file repo_root (view_at diff_foo 5 1)
           (fresh ∅) "diff --git a/src/foo.txt b/src/foo.txt"
           ["--- a/src/foo.txt"] [] [""]);
    reflexivity.
Defined.

(** C3 as the specification words it fails when [+++ b/src/foo.txt] is the
    first line of the buffer: the loop stops at [pt = 0] before it reads
    that line, the file name stays [None] and the run ends in an
    exception instead of a target. *)
Lemma C3_counterexample :
  contains "markup.inserted.diff"
    (Sublime.scope_name (view_at diff_foo_bare 3 1)
       (Sublime.sel0_a (view_at diff_foo_bare 3 1))) = true ∧
  cursor_column (view_at diff_foo_bare 3 1) = 0%Z ∧
  ∃ e st',
    run every_file repo_root (view_at diff_foo_bare 3 1) (fresh ∅)
      = Some (Raise e, st') ∧
    file_name st' ≠ Some "src/foo.txt" ∧
    effects st' = [].
Proof.
  split; [reflexivity|]. split; [reflexivity|].
  eexists _, _. split; [vm_compute; reflexivity|].
  split; [discriminate|reflexivity].
Qed.

(** C4 as the specification words it fails on the hunk [@@ -1,3 +1,4 @@]
    followed by [+x], [+y], [ z], [-w] with the cursor on [+x]: the scan
    counts one line, not none, and the target line is 1, the new start,
    not 0. *)
Lemma C4_counterexample :
  ∃ s st',
    scan (Sublime.text (view_at diff_xyzw 4 1))
      (cursor_line_start (view_at diff_xyzw 4 1)) = Some s ∧
    run every_file repo_root (view_at diff_xyzw 4 1) (fresh ∅)
      = Some (Ok tt, st') ∧
    hunk_line s = Some "@@ -1,3 +1,4 @@" ∧
    line_offset s ≠ 0%Z ∧
    goto_line st' ≠ Some (int "1" - 1)%Z.
Proof.
  eexists _, _. split; [vm_compute; reflexivity|].
  split; [vm_compute; reflexivity|].
  split; [reflexivity|]. split; discriminate.
Qed.

Lemma C4_first_added_line_witness :
  forallb no_nl
    ("diff --git a/f b/f" :: (["--- a/f"; "+++ b/f"] ++ ["@@ -1,3 +1,4 @@"])
       ++ ["+x"]) = true ∧
  startswith "@@" "@@ -1,3 +1,4 @@" = true ∧
  is_marker "+x" = false ∧
  1 ≤ String.length "+x" ∧
  applicable (view_at diff_xyzw 4 1) = true ∧
  match_hunk "@@ -1,3 +1,4 @@"
    = Some {| group1 := "1"; group3 := Some "3"; group4 := "1";
              group6 := Some "4" |} ∧
  ∃ s r st',
    scan (Sublime.text (view_at diff_xyzw 4 1))
      (cursor_line_start (view_at diff_xyzw 4 1)) = Some s ∧
    hunk_line s = Some "@@ -1,3 +1,4 @@" ∧
    line_offset s = 1%Z ∧
    run every_file repo_root (view_at diff_xyzw 4 1) (fresh ∅)
      = Some (r, st') ∧
    goto_line st' = Some (1 + line_offset s - 1)%Z ∧
    goto_line st' = Some 1%Z.
Proof.
  split; [reflexivity|]. split; [reflexivity|]. split; [reflexivity|].
  split; [simpl; lia|]. split; [reflexivity|]. split; [reflexivity|].
  apply (Target.C4_first_added_line every_file repo_root
           (view_at diff_xyzw 4 1) (fresh ∅) "diff --git a/f b/f"
           ["--- a/f"; "+++ b/f"] "@@ -1,3 +1,4 @@" "x"
           ["+y"; " z"; "-w"] 1
           {| group1 := "1"; group3 := Some "3"; group4 := "1";
              group6 := Some "4" |});
    first [reflexivity | simpl; lia].
Defined.

Lemma C5_no_hunk_header_raises_witness :
  applicable (view_at diff_no_hunk 3 1) = true ∧
  scan (Sublime.text (view_at diff_no_hunk 3 1))
    (cursor_line_start (view_at diff_no_hunk 3 1))
    = Some {| scan_file_name := Some "f"; hunk_line := None;
              line_offset := 1 |} ∧
  run every_file repo_root (view_at diff_no_hunk 3 1) (fresh ∅)
  = Some (Raise TypeError,
          {| column := Some 0%Z; file_name := Some "f";
             goto_line := None; settings := ∅; effects := [] |}).
Proof.
  split; [reflexivity|]. split; [reflexivity|].
  apply (Navigation.C5_no_hunk_header_raises every_file repo_root
           (view_at diff_no_hunk 3 1) (fresh ∅)
           {| scan_file_name := Some "f"; hunk_line := None;
              line_offset := 1 |} "f");
    reflexivity.
Defined.

Lemma C6_no_file_marker_raises_witness :
  applicable (view_at diff_no_marker 4 1) = true ∧
  scan (Sublime.text (view_at diff_no_marker 4 1))
    (cursor_line_start (view_at diff_no_marker 4 1))
    = Some {| scan_file_name := None; hunk_line := Some "@@ -1 +1 @@";
              line_offset := 1 |} ∧
  match_hunk "@@ -1 +1 @@"
    = Some {| group1 := "1"; group3 := None; group4 := "1";
              group6 := None |} ∧
  ∃ e st',
    run every_file repo_root (view_at diff_no_marker 4 1) (fresh ∅)
      = Some (Raise e, st') ∧
    file_name st' = None ∧
    effects st' = effects (fresh ∅) ∧ settings st' = settings (fresh ∅).
Proof.
  split; [reflexivity|]. split; [reflexivity|]. split; [reflexivity|].
  apply (Navigation.C6_no_file_marker_raises every_file repo_root
           (view_at diff_no_marker 4 1) (fresh ∅)
           {| scan_file_name := None; hunk_line := Some "@@ -1 +1 @@";
              line_offset := 1 |});
    [reflexivity | reflexivity | reflexivity |].
  right. exists "@@ -1 +1 @@",
    {| group1 := "1"; group3 := None; group4 := "1"; group6 := None |}.
  split; reflexivity.
Defined.



Lemma C8_prompt_iff_missing_witness :
  (∃ st',
     run no_file repo_root (view_at diff_foo 5 1) (fresh ∅)
       = Some (Ok tt, st') ∧
     effects st'
     = [ShowInputPanel "Enter base directory for file 'src/foo.txt':"
          "/work/repo"]) ∧
  (∃ st',
     run every_file repo_root (view_at diff_foo 5 1) (fresh ∅)
       = Some (Ok tt, st') ∧
     effects st'
     = [SettingsSet "git_root_dir" "/work/repo";
        OpenFile "/work/repo/src/foo.txt";
        GotoXY "/work/repo/src/foo.txt" 11 0]).
Proof.
  split.
  - destruct (Navigation.C8_prompt_iff_missing no_file repo_root
             (view_at diff_foo 5 1) (fresh ∅)
             {| scan_file_name := Some "src/foo.txt";
                hunk_line := Some "@@ -10,2 +10,3 @@";
                line_offset := 2 |}
             "@@ -10,2 +10,3 @@"
             {| group1 := "10"; group3 := Some "2"; group4 := "10";
                group6 := Some "3" |} "src/foo.txt"
             eq_refl eq_refl eq_refl eq_refl eq_refl)
      as (st' & Hrun & Heff).
    exists st'. split; [exact Hrun|]. rewrite Heff. reflexivity.
  - destruct (Navigation.C8_prompt_iff_missing every_file repo_root
             (view_at diff_foo 5 1) (fresh ∅)
             {| scan_file_name := Some "src/foo.txt";
                hunk_line := Some "@@ -10,2 +10,3 @@";
                line_offset := 2 |}
             "@@ -10,2 +10,3 @@"
             {| group1 := "10"; group3 := Some "2"; group4 := "10";
                group6 := Some "3" |} "src/foo.txt"
             eq_refl eq_refl eq_refl eq_refl eq_refl)
      as (st' & Hrun & Heff).
    exists st'. split; [exact Hrun|]. rewrite Heff. reflexivity.
Defined.

(** A command that has located [src/foo.txt], line 11, column 0, on a
    view with the given settings. *)
Lemma C9_base_written_iff_changed_witness :
  ∃ st',
    on_path_confirmed "/work/repo"
      {| column := Some 0%Z; file_name := Some "src/foo.txt";
         goto_line := Some 11%Z;
         settings := {[ "git_root_dir" := "/work/repo" ]};
         effects := [] |}
    = (Ok tt, st') ∧
    settings st' = {[ "git_root_dir" := "/work/repo" ]} ∧
    effects st'
    = [OpenFile "/work/repo/src/foo.txt";
       GotoXY "/work/repo/src/foo.txt" 11 0].
Proof.
  destruct (Navigation.C9_base_written_iff_changed "/work/repo"
    {| column := Some 0%Z; file_name := Some "src/foo.txt";
       goto_line := Some 11%Z;
       settings := {[ "git_root_dir" := "/work/repo" ]};
       effects := [] |} "src/foo.txt" 11 0 eq_refl eq_refl eq_refl)
    as (st' & Hrun & Hsame & _).
  exists st'. split; [exact Hrun|]. apply Hsame. reflexivity.
Defined.

End Instances.

(** ** GitDiff and GitDiffCommit: whole runs *)

Module DiffFlow.

Import Py StrFacts GitDiff Locate MoreExamples.

Lemma split_nl_not_nil s : split_nl s ≠ [].
Proof.
  destruct s as [|c s]; [done|]. simpl.
  destruct (Ascii.eqb c nl); [done|]. by destruct (split_nl s).
Qed.

Lemma split_nl_no_nl l : no_nl l = true → split_nl l = [l].
Proof.
  induction l as [|c l IH]; [done|]. simpl. intros H.
  apply andb_true_iff in H as [Hc Hl]. apply negb_true_iff in Hc.
  by rewrite Hc, IH.
Qed.

Lemma split_nl_line l r :
  no_nl l = true → split_nl (l +:+ String nl r) = l :: split_nl r.
Proof.
  induction l as [|c l IH]; intros H.
  - rewrite app_nil_l. simpl. by rewrite ?Ascii.eqb_refl.
  - simpl in H. apply andb_true_iff in H as [Hc Hl].
    apply negb_true_iff in Hc. rewrite app_cons. simpl.
    by rewrite Hc, IH.
Qed.

(** Splitting the joined lines gives the lines back. *)
Lemma split_nl_join_nl ls :
  ls ≠ [] → forallb no_nl ls = true → split_nl (join_nl ls) = ls.
Proof.
  induction ls as [|l ls IH]; [done|]. intros _ H.
  cbn [forallb] in H. apply andb_true_iff in H as [Hl Hls].
  destruct ls as [|l' ls]; [by apply split_nl_no_nl|].
  rewrite ScanFacts.join_nl_cons by done.
  rewrite split_nl_line by done. by rewrite IH.
Qed.

Lemma lstrip_blank s : blank s = true → lstrip s = "".
Proof.
  unfold blank. induction s as [|c s IH]; [done|]. simpl. intros H.
  apply andb_true_iff in H as [Hc Hs]. by rewrite Hc, IH.
Qed.

Lemma strip_blank s : blank s = true → strip s = "".
Proof. intros H. unfold strip. by rewrite lstrip_blank. Qed.

(** The untracked paths of a status output, read off its lines. *)
Lemma untracked_lines result ls :
  rstrip result = join_nl ls → ls ≠ [] → forallb no_nl ls = true →
  untracked result
  = map (slice_from 3) (filter (λ x, startswith "??" x = true) ls).
Proof.
  intros Hr Hne Hnl. unfold untracked. by rewrite Hr, split_nl_join_nl.
Qed.

Ltac unfold_flow :=
  repeat progress
    unfold run, stage_untracked_files, stage_untracked_files_result,
      continue_diff, run_command, run_command_, diff_done,
      reset_untracked_files, read_empty_stages, mbind, M_bind, mret, M_ret,
      raise, get_self, set_self, emit in *.

(** With staging enabled, untracked files in the status output and a diff
    to show, a run starts four commands around the display, in this order:
    the status query, one [git add . -N], the diff, and after the display
    one quiet reset that names the paths of the [??] lines, in their order
    and nothing else.  Lines of tracked files are neither staged by name
    nor reset. *)
Theorem staged_diff_flow settings file git ignore_ws st ls :
  diff_untracked_files settings = true →
  rstrip (git untracked_files_command) = join_nl ls →
  ls ≠ [] → forallb no_nl ls = true →
  0 < List.length (filter (λ x, startswith "??" x = true) ls) →
  (strip (git (diff_command file ignore_ws)) =? "")%string = false →
  let paths :=
    map (slice_from 3) (filter (λ x, startswith "??" x = true) ls) in
  run settings file git ignore_ws st
  = (Ok tt,
     {| self := {| ignore_whitespace := ignore_ws;
                   empty_stages := Some paths |};
        events := events st ++
          [RunCommand untracked_files_command;
           RunCommand ["git"; "add"; "."; "-N"];
           RunCommand (diff_command file ignore_ws);
           display settings (git (diff_command file ignore_ws));
           RunCommand (["git"; "reset"; "--quiet"; "--"] ++ paths)] |}).
Proof.
  intros Hs Hr Hne Hnl Hn He paths.
  pose proof (untracked_lines _ _ Hr Hne Hnl) as Hu. fold paths in Hu.
  assert (0 < List.length paths) as Hp
    by (unfold paths; by rewrite length_map).
  unfold_flow. simpl. rewrite Hs. simpl. rewrite Hu.
  destruct (Nat.ltb_spec 0 (List.length paths)); [|lia].
  simpl. rewrite He. simpl.
  destruct (Nat.ltb_spec 0 (List.length paths)); [|lia].
  simpl. by rewrite <- !List.app_assoc.
Qed.

Lemma staged_diff_flow_witness :
  run Examples.settings_staging "a.txt"
    (Examples.git_answers status_output "x") true GitDiff.fresh
  = (Ok tt,
     {| self := {| ignore_whitespace := true;
                   empty_stages := Some ["new.txt"; "doc/b.txt"] |};
        events :=
          [RunCommand ["git"; "status"; "-uall"; "--porcelain"];
           RunCommand ["git"; "add"; "."; "-N"];
           RunCommand ["git"; "diff"; "--no-color"; "--ignore-all-space";
                       "--ignore-blank-lines"; "--"; "a.txt"];
           Scratch "x" "Git Diff" "Packages/Diff/Diff.tmLanguage";
           RunCommand ["git"; "reset"; "--quiet"; "--"; "new.txt";
                       "doc/b.txt"]] |}).
Proof.
  apply (staged_diff_flow Examples.settings_staging "a.txt"
           (Examples.git_answers status_output "x") true GitDiff.fresh
           status_lines);
    first [reflexivity | discriminate | vm_compute; lia].
Defined.

(** With staging enabled a run never raises, whatever git prints and
    whatever state the command object was in: the status callback assigns
    [empty_stages] before anything reads it.  Afterwards the object holds
    the untracked paths of this run. *)
Theorem staging_run_returns settings file git ignore_ws st :
  diff_untracked_files settings = true →
  ∃ st',
    run settings file git ignore_ws st = (Ok tt, st') ∧
    empty_stages (self st')
    = Some (untracked (git untracked_files_command)) ∧
    ignore_whitespace (self st') = ignore_ws.
Proof.
  intros Hs. unfold_flow. simpl. rewrite Hs. simpl.
  destruct (0 <? List.length (untracked (git untracked_files_command)))
    eqn:Hn; simpl; [|by eexists].
  destruct (strip (git (diff_command file ignore_ws)) =? "")%string;
    simpl; [by eexists|].
  rewrite Hn. by eexists.
Qed.

Lemma staging_run_returns_witness :
  ∃ st',
    run Examples.settings_staging "a.txt"
      (Examples.git_answers status_output "") false staged_before
    = (Ok tt, st') ∧
    empty_stages (self st')
    = Some (untracked
              (Examples.git_answers status_output ""
                 untracked_files_command)) ∧
    ignore_whitespace (self st') = false.
Proof.
  apply (staging_run_returns Examples.settings_staging "a.txt"
           (Examples.git_answers status_output "") false staged_before).
  reflexivity.
Defined.

(** With staging disabled the paths an earlier run left on the command
    object are reset again: the run shows the diff and then starts a reset
    for paths it has not staged itself. *)
Theorem stale_stages_reset settings file git ignore_ws st stale :
  diff_untracked_files settings = false →
  empty_stages (self st) = Some stale →
  0 < List.length stale →
  (strip (git (diff_command file ignore_ws)) =? "")%string = false →
  run settings file git ignore_ws st
  = (Ok tt,
     {| self := {| ignore_whitespace := ignore_ws;
                   empty_stages := Some stale |};
        events := events st ++
          [RunCommand (diff_command file ignore_ws);
           display settings (git (diff_command file ignore_ws));
           RunCommand (["git"; "reset"; "--quiet"; "--"] ++ stale)] |}).
Proof.
  intros Hs Hst Hn He. unfold_flow. simpl. rewrite Hs. simpl.
  rewrite He, Hst. simpl.
  destruct (Nat.ltb_spec 0 (List.length stale)); [|lia].
  simpl. by rewrite <- !List.app_assoc.
Qed.

Lemma stale_stages_reset_witness :
  run Examples.settings_plain "a.txt" (Examples.git_answers "" "x") false
    staged_before
  = (Ok tt,
     {| self := {| ignore_whitespace := false;
                   empty_stages := Some ["new.txt"] |};
        events :=
          [RunCommand ["git"; "diff"; "--no-color"; "--"; "a.txt"];
           Scratch "x" "Git Diff" "Packages/Diff/Diff.tmLanguage";
           RunCommand ["git"; "reset"; "--quiet"; "--"; "new.txt"]] |}).
Proof.
  apply (stale_stages_reset Examples.settings_plain "a.txt"
           (Examples.git_answers "" "x") false staged_before ["new.txt"]);
    first [reflexivity | simpl; lia].
Defined.

(** With staging disabled and a diff output of white space only, the run
    shows "No output" and returns, also on a command object that never
    staged: [empty_stages] is not read on this path, and no reset is
    started for paths left by an earlier run. *)
Theorem blank_output_unstaged settings file git ignore_ws st :
  diff_untracked_files settings = false →
  blank (git (diff_command file ignore_ws)) = true →
  run settings file git ignore_ws st
  = (Ok tt,
     {| self := {| ignore_whitespace := ignore_ws;
                   empty_stages := empty_stages (self st) |};
        events := events st ++
          [RunCommand (diff_command file ignore_ws);
           Panel "No output" None] |}).
Proof.
  intros Hs Hb. unfold_flow. simpl. rewrite Hs. simpl.
  rewrite strip_blank by done. simpl. by rewrite <- !List.app_assoc.
Qed.

Lemma blank_output_unstaged_witness :
  run Examples.settings_plain "a.txt"
    (Examples.git_answers "" (" " +:+ NL)) false GitDiff.fresh
  = (Ok tt,
     {| self := {| ignore_whitespace := false; empty_stages := None |};
        events :=
          [RunCommand ["git"; "diff"; "--no-color"; "--"; "a.txt"];
           Panel "No output" None] |}).
Proof.
  apply (blank_output_unstaged Examples.settings_plain "a.txt"
           (Examples.git_answers "" (" " +:+ NL)) false GitDiff.fresh);
    reflexivity.
Defined.

(** [GitDiffCommit.run] starts the cached diff and nothing else, never
    raises and leaves the command object as it was; a diff is always shown
    in a scratch buffer, whatever [diff_panel] and [diff_untracked_files]
    say, and a blank output as "No output". *)
Theorem commit_diff_flow settings git ignore_ws st :
  let out := git (GitDiffCommit.diff_command ignore_ws) in
  GitDiffCommit.run settings git ignore_ws st
  = (Ok tt,
     {| self := self st;
        events := events st ++
          [RunCommand (GitDiffCommit.diff_command ignore_ws);
           if (strip out =? "")%string then Panel "No output" None
           else Scratch out "Git Diff" (diff_syntax settings)] |}).
Proof.
  intros out. unfold GitDiffCommit.run, GitDiffCommit.diff_done.
  unfold_flow. simpl. fold out.
  destruct (strip out =? "")%string; simpl; by rewrite <- !List.app_assoc.
Qed.

End DiffFlow.

(** ** GitGotoDiff: what the scan reads and where a run ends *)

Module LocateFacts.

Import Py StrFacts LineFacts ScanFacts HunkFacts GitGotoDiff Spec GotoFacts.
Import Locate MoreExamples.

Lemma forallb_rev {A} (f : A → bool) l :
  forallb f l = true → forallb f (rev l) = true.
Proof.
  intros H. apply forallb_forall. intros x Hx. apply in_rev in Hx.
  by apply (proj1 (forallb_forall f l) H).
Qed.

Lemma no_marker_Forall ls :
  forallb (λ l, negb (is_marker l)) ls = true →
  Forall (λ l, startswith "+++ b/" l = false) ls.
Proof.
  intros H. apply Forall_forall. intros l Hl.
  apply list_elem_of_In in Hl.
  apply (proj1 (forallb_forall _ _) H) in Hl. by apply negb_true_iff in Hl.
Qed.

Lemma marker_not_header l : is_marker l = true → startswith "@@" l = false.
Proof.
  unfold is_marker, startswith. destruct l as [|c l]; [done|].
  change (String.prefix "+++ b/" (String c l))
    with (if ascii_dec "+" c then String.prefix "++ b/" l else false).
  destruct (ascii_dec "+" c) as [<-|]; [|done]. intros _. reflexivity.
Qed.

Lemma header_truthy hdr : is_header hdr = true → truthy (Some hdr) = true.
Proof.
  intros H. simpl. apply negb_true_iff, String.eqb_neq.
  by apply (startswith_nonempty "@@").
Qed.

(** The scan passes a content line and counts it unless it is a removed
    line. *)
Lemma scan_body_content l x s :
  is_content l = true → truthy (hunk_line s) = false →
  scan_body l x s
  = Continue {| scan_file_name := scan_file_name s;
                hunk_line := hunk_line s;
                line_offset := line_offset s + count_new [l] |}.
Proof.
  unfold is_content, is_header, is_marker, scan_body, count_new, counted.
  intros Hc Hh. apply andb_true_iff in Hc as [H1 H2].
  apply negb_true_iff in H1, H2. rewrite H1, H2, Hh. simpl.
  destruct (startswith "-" l); simpl; [|done].
  destruct s; simpl. do 2 f_equal. lia.
Qed.

Lemma count_new_cons l ls :
  count_new (l :: ls) = (count_new [l] + count_new ls)%Z.
Proof. unfold count_new. simpl. destruct (counted l); simpl; lia. Qed.

Lemma count_new_visit cur body :
  count_new (cur :: rev body) = count_new (body ++ [cur]).
Proof.
  unfold count_new. rewrite List.filter_app. simpl.
  rewrite List.filter_rev.
  destruct (counted cur); simpl; rewrite ?List.length_app, List.length_rev;
    simpl; lia.
Qed.

Lemma scan_lines_content ls : ∀ rest s,
  forallb is_content ls = true → truthy (hunk_line s) = false →
  scan_lines (ls ++ rest) s
  = scan_lines rest
      {| scan_file_name := scan_file_name s; hunk_line := hunk_line s;
         line_offset := line_offset s + count_new ls |}.
Proof.
  induction ls as [|l ls IH]; intros rest s Hc Hh.
  - simpl. destruct s; simpl. do 2 f_equal. unfold count_new. simpl. lia.
  - cbn [forallb] in Hc. apply andb_true_iff in Hc as [Hl Hls].
    change ((l :: ls) ++ rest) with (l :: (ls ++ rest)).
    rewrite scan_lines_cons, scan_body_content by done.
    rewrite IH by done. cbn [scan_file_name hunk_line line_offset].
    rewrite (count_new_cons l ls). do 2 f_equal. lia.
Qed.

(** The state of the scan after the lines from the cursor up to a header
    it has not yet met. *)
Lemma scan_lines_to_header cur body hdr rest :
  forallb is_content (body ++ [cur]) = true → is_header hdr = true →
  scan_lines (cur :: rev body ++ hdr :: rest) scan_init
  = scan_lines rest
      {| scan_file_name := None; hunk_line := Some hdr;
         line_offset := count_new (body ++ [cur]) |}.
Proof.
  intros Hc Hh.
  assert (forallb is_content (cur :: rev body) = true) as Hv.
  { rewrite forallb_app in Hc. apply andb_true_iff in Hc as [Hb Hcur].
    cbn [forallb] in *. apply andb_true_iff in Hcur as [Hcur _].
    by rewrite Hcur, forallb_rev. }
  rewrite app_comm_cons, scan_lines_content by done.
  rewrite scan_lines_cons. unfold scan_body. unfold is_header in Hh.
  rewrite Hh. simpl. by rewrite count_new_visit.
Qed.

Section WithEnvironment.

Variable isfile : string → bool.
Variable git_root : string → option string.

(** The loop ends for every buffer and every cursor: each iteration moves
    [pt] to the start of an earlier line, so the result is reached within
    [pt] iterations and more fuel does not change it. *)
Theorem scan_terminates fuel : ∀ text pt s,
  pt ≤ fuel →
  ∃ r, scan_loop pt text pt s = Some r ∧ scan_loop fuel text pt s = Some r.
Proof.
  intros text pt s Hf.
  destruct (scan_loop_total pt text pt s (Nat.le_refl pt)) as [r Hr].
  exists r. split; [done|]. rewrite <- Hr. clear r Hr.
  revert pt s Hf.
  assert (∀ f1 f2 pt s, pt ≤ f1 → pt ≤ f2 →
            scan_loop f1 text pt s = scan_loop f2 text pt s) as Hind.
  { induction f1 as [|f1 IH]; intros f2 pt s H1 H2.
    - replace pt with 0 by lia. by rewrite !scan_loop_zero.
    - destruct pt as [|pt]; [by rewrite !scan_loop_zero|].
      destruct f2 as [|f2]; [lia|].
      rewrite !scan_loop_pos by lia.
      destruct (scan_step text (S pt) s); [done|].
      pose proof (line_a_le text (S pt - 1)).
      apply IH; lia. }
  intros pt s Hf. by apply Hind.
Qed.

(** The scan reads the cursor's line and the lines above it down to the
    second line of the buffer, and nothing else: the first line and the
    lines below the cursor can be replaced without changing its result. *)
Theorem scan_reads_lines_above_only first first' above cur below below' :
  forallb no_nl (first :: first' :: above ++ [cur]) = true →
  scan (join_nl (first :: above ++ cur :: below))
    (String.length (join_nl (first :: above)) + 1)
  = scan (join_nl (first' :: above ++ cur :: below'))
      (String.length (join_nl (first' :: above)) + 1).
Proof.
  intros H. cbn [forallb] in H.
  apply andb_true_iff in H as [H1 H]. apply andb_true_iff in H as [H2 H].
  rewrite !scan_of_lines; [done|..];
    apply Target.forallb_Forall; cbn [forallb]; by rewrite ?H1, ?H2, H.
Qed.

(** Where a run ends up.  With a file marker above a hunk header above the
    cursor, no other marker in between and no marker or header between the
    header and the cursor, the run returns with the marker's path, the
    column of the cursor behind the [+] or [-], and the target line
    [new_start + n - 1], where [n] counts the lines from the first line of
    the hunk to the cursor's line, both included, that do not start with
    [-].  Earlier hunks between the marker and this header do not matter. *)
Theorem run_locates v st first pre marker mid hdr body cur below k m :
  forallb no_nl
    (first :: (pre ++ [marker] ++ mid ++ [hdr] ++ body) ++ [cur]) = true →
  is_marker marker = true →
  forallb (λ l, negb (is_marker l)) mid = true →
  is_header hdr = true →
  forallb is_content (body ++ [cur]) = true →
  Sublime.text v
  = join_nl (first ::
      (pre ++ [marker] ++ mid ++ [hdr] ++ body) ++ cur :: below) →
  Sublime.sel0_a v
  = String.length
      (join_nl (first :: pre ++ [marker] ++ mid ++ [hdr] ++ body)) + 1 + k →
  k ≤ String.length cur →
  applicable v = true →
  match_hunk hdr = Some m →
  ∃ st',
    run isfile git_root v st = Some (Ok tt, st') ∧
    file_name st' = Some (strip (slice_from 6 marker)) ∧
    goto_line st'
    = Some (int (group4 m) + count_new (body ++ [cur]) - 1)%Z ∧
    column st' = Some (Z.of_nat k - 1)%Z.
Proof.
  intros Hnl Hmark Hmid Hhdr Hbody Ht Hsel Hk Ha Hm.
  destruct (Target.cursor_on_line v first _ cur below k Ht Hsel Hk Hnl)
    as [Hcol Hscan].
  rewrite !rev_app_distr in Hscan. cbn [rev app] in Hscan.
  rewrite <- !List.app_assoc in Hscan. cbn [app] in Hscan.
  rewrite scan_lines_to_header in Hscan by done.
  rewrite scan_lines_no_marker in Hscan;
    [|by apply header_truthy|by apply no_marker_Forall, forallb_rev].
  rewrite scan_lines_cons in Hscan. unfold scan_body in Hscan.
  unfold is_marker in Hmark.
  rewrite marker_not_header, Hmark in Hscan by done.
  cbn [scan_file_name hunk_line line_offset] in Hscan.
  destruct (run_match isfile git_root v st _ hdr m Ha Hscan eq_refl Hm)
    as (r & st' & Hrun & Hc & Hf & Hg & Hr).
  exists st'. rewrite Hrun, Hr by (by eexists).
  split; [done|]. split; [done|]. split; [done|]. by rewrite Hc, Hcol.
Qed.

(** A file marker on the first line of the buffer is not found: the loop
    stops at [pt = 0] without reading that line.  With a matching header
    above the cursor and no marker from the second line on, the run ends
    in an exception with [file_name] still [None], whatever the first line
    is. *)
Theorem marker_on_first_line_missed v st first above hdr body cur below k m :
  forallb no_nl (first :: (above ++ [hdr] ++ body) ++ [cur]) = true →
  forallb (λ l, negb (is_marker l)) above = true →
  is_header hdr = true →
  forallb is_content (body ++ [cur]) = true →
  Sublime.text v
  = join_nl (first :: (above ++ [hdr] ++ body) ++ cur :: below) →
  Sublime.sel0_a v
  = String.length (join_nl (first :: above ++ [hdr] ++ body)) + 1 + k →
  k ≤ String.length cur →
  applicable v = true →
  match_hunk hdr = Some m →
  ∃ e st',
    run isfile git_root v st = Some (Raise e, st') ∧
    file_name st' = None ∧ effects st' = effects st.
Proof.
  intros Hnl Habove Hhdr Hbody Ht Hsel Hk Ha Hm.
  destruct (Target.cursor_on_line v first _ cur below k Ht Hsel Hk Hnl)
    as [Hcol Hscan].
  rewrite !rev_app_distr in Hscan. cbn [rev app] in Hscan.
  rewrite <- !List.app_assoc in Hscan. cbn [app] in Hscan.
  rewrite scan_lines_to_header in Hscan by done.
  rewrite <- (List.app_nil_r (rev above)) in Hscan.
  rewrite scan_lines_no_marker in Hscan;
    [|by apply header_truthy|by apply no_marker_Forall, forallb_rev].
  cbn [scan_lines] in Hscan.
  rewrite run_applicable, Hscan by done. simpl.
  rewrite (after_scan_match _ _ _ _ _ hdr m) by done.
  cbn [scan_file_name line_offset].
  destruct (resolve_no_file_name isfile git_root v
    (with_goto_line (int (group4 m) + count_new (body ++ [cur]) - 1)
       (with_file_name None (with_column (cursor_column v) st))) eq_refl)
    as [e ->].
  by eexists _, _.
Qed.

(** The nearest line above the cursor that starts with [+++ b/] ends the
    scan, also when it is an added line inside the hunk: the header above
    it is then never seen and the run ends in the TypeError of
    [re.match] on [None], with that line's text as file name. *)
Theorem marker_below_header_hides_it v st first above fake body cur below k :
  forallb no_nl (first :: (above ++ [fake] ++ body) ++ [cur]) = true →
  is_marker fake = true →
  forallb is_content (body ++ [cur]) = true →
  Sublime.text v
  = join_nl (first :: (above ++ [fake] ++ body) ++ cur :: below) →
  Sublime.sel0_a v
  = String.length (join_nl (first :: above ++ [fake] ++ body)) + 1 + k →
  k ≤ String.length cur →
  applicable v = true →
  run isfile git_root v st
  = Some (Raise TypeError,
          with_file_name (Some (strip (slice_from 6 fake)))
            (with_column (Z.of_nat k - 1) st)).
Proof.
  intros Hnl Hfake Hbody Ht Hsel Hk Ha.
  destruct (Target.cursor_on_line v first _ cur below k Ht Hsel Hk Hnl)
    as [Hcol Hscan].
  rewrite !rev_app_distr in Hscan. cbn [rev app] in Hscan.
  rewrite <- !List.app_assoc in Hscan. cbn [app] in Hscan.
  assert (forallb is_content (cur :: rev body) = true) as Hv.
  { rewrite forallb_app in Hbody. apply andb_true_iff in Hbody as [Hb Hc].
    cbn [forallb] in *. apply andb_true_iff in Hc as [Hc _].
    by rewrite Hc, forallb_rev. }
  rewrite app_comm_cons, scan_lines_content in Hscan by done.
  rewrite scan_lines_cons in Hscan. unfold scan_body in Hscan.
  unfold is_marker in Hfake.
  rewrite marker_not_header, Hfake in Hscan by done.
  cbn [scan_file_name hunk_line line_offset] in Hscan.
  rewrite run_applicable, Hscan by done. simpl.
  rewrite after_scan_no_hunk by done. by rewrite Hcol.
Qed.

(** Once a base directory is stored for the view, the window's folder and
    the repository root finder play no part in the resolution. *)
Theorem stored_base_overrides_hint v v' git_root' st :
  truthy (settings st !! "git_root_dir") = true →
  resolve isfile git_root v st = resolve isfile git_root' v' st.
Proof.
  intros Hs. unfold resolve, settings_get.
  unfold mbind, M_bind. cbv beta. by rewrite Hs.
Qed.

(** The prompt and its answer.  When the composed path is not a file the
    run only shows the prompt; the base the user then confirms is taken as
    it is: it is stored if it differs from the stored one, and the file at
    [join base rel] is opened at the target line and column without a
    second look at the file system. *)
Theorem prompt_then_confirm v st s h m rel base :
  applicable v = true →
  scan (Sublime.text v) (cursor_line_start v) = Some s →
  scan_file_name s = Some rel →
  hunk_line s = Some h → match_hunk h = Some m →
  let stored := settings st !! "git_root_dir" in
  let cand := candidate_base git_root v stored in
  let target := (int (group4 m) + line_offset s - 1)%Z in
  isfile (full_path cand rel) = false →
  ∃ st1 st2,
    run isfile git_root v st = Some (Ok tt, st1) ∧
    settings st1 = settings st ∧
    effects st1
    = effects st ++ [ShowInputPanel (caption rel) (prefill cand)] ∧
    on_path_confirmed base st1 = (Ok tt, st2) ∧
    settings st2 !! "git_root_dir" = Some base ∧
    effects st2
    = effects st1 ++ settings_write stored base ++
      [OpenFile (OsPath.join base rel);
       GotoXY (OsPath.join base rel) target (cursor_column v)].
Proof.
  intros Ha Hs Hf Hh Hm stored cand target Hno.
  rewrite run_applicable, Hs by done. simpl.
  rewrite (after_scan_match _ _ _ _ _ h m) by done. fold target.
  set (st0 := with_goto_line target _).
  assert (settings st0 = settings st) as Hset by done.
  rewrite (resolve_file_name _ _ _ _ rel) by done. cbv zeta.
  rewrite Hset. fold stored cand. rewrite Hno.
  eexists _, _. split; [done|]. split; [done|]. split; [done|].
  rewrite (on_path_confirmed_ok base _ rel target (cursor_column v))
    by done.
  split; [done|]. cbn [settings effects with_effect]. rewrite Hset.
  fold stored. split; [|done].
  destruct (decide (stored = Some base)) as [He|Hne]; [done|].
  apply lookup_insert_eq.
Qed.

End WithEnvironment.

(** A confirmed base is what the view then holds, and confirming it again
    writes nothing: the second confirmation only opens the file. *)
Theorem confirm_twice base st rel gl col :
  file_name st = Some rel → goto_line st = Some gl →
  column st = Some col →
  ∃ st1 st2,
    on_path_confirmed base st = (Ok tt, st1) ∧
    settings st1 !! "git_root_dir" = Some base ∧
    on_path_confirmed base st1 = (Ok tt, st2) ∧
    settings st2 = settings st1 ∧
    effects st2
    = effects st1 ++
      [OpenFile (OsPath.join base rel); GotoXY (OsPath.join base rel) gl col].
Proof.
  intros Hf Hg Hc.
  rewrite (on_path_confirmed_ok base st rel gl col) by done.
  set (st1 := {| column := _ |}).
  assert (settings st1 !! "git_root_dir" = Some base) as Hstored.
  { simpl.
    destruct (decide (settings st !! "git_root_dir" = Some base));
      [done|apply lookup_insert_eq]. }
  exists st1. eexists. split; [done|]. split; [done|].
  rewrite (on_path_confirmed_ok base st1 rel gl col) by done.
  split; [done|]. cbn [settings effects]. unfold settings_write.
  rewrite !decide_True by done. done.
Qed.

End LocateFacts.

(** ** The theorems on runs at the example inputs *)

Module LocateInstances.

Import Py GitGotoDiff Spec Examples Locate MoreExamples.

Lemma scan_terminates_witness :
  ∃ r,
    scan_loop 22 (join_nl diff_xyzw) 22 scan_init = Some r ∧
    scan_loop 100 (join_nl diff_xyzw) 22 scan_init = Some r.
Proof.
  apply (LocateFacts.scan_terminates 100 (join_nl diff_xyzw) 22 scan_init).
  lia.
Defined.

Lemma scan_reads_lines_above_only_witness :
  scan (join_nl ("diff --git a/f b/f" ::
                   ["--- a/f"; "+++ b/f"; "@@ -1,3 +1,4 @@"] ++
                   "+x" :: ["+y"; " z"; "-w"]))
    (String.length
       (join_nl ("diff --git a/f b/f" ::
                   ["--- a/f"; "+++ b/f"; "@@ -1,3 +1,4 @@"])) + 1)
  = scan (join_nl ("+++ b/other" ::
                     ["--- a/f"; "+++ b/f"; "@@ -1,3 +1,4 @@"] ++
                     "+x" :: []))
      (String.length
         (join_nl ("+++ b/other" ::
                     ["--- a/f"; "+++ b/f"; "@@ -1,3 +1,4 @@"])) + 1).
Proof.
  apply (LocateFacts.scan_reads_lines_above_only "diff --git a/f b/f"
           "+++ b/other" ["--- a/f"; "+++ b/f"; "@@ -1,3 +1,4 @@"] "+x"
           ["+y"; " z"; "-w"] []).
  reflexivity.
Defined.

Lemma run_locates_witness :
  count_new (["+x"; "+y"; " z"] ++ ["-w"]) = 3%Z ∧
  ∃ st',
    run no_file repo_root (view_at diff_xyzw 7 1) (fresh ∅)
      = Some (Ok tt, st') ∧
    file_name st' = Some "f" ∧
    goto_line st' = Some 3%Z ∧
    column st' = Some 0%Z.
Proof.
  split; [reflexivity|].
  apply (LocateFacts.run_locates no_file repo_root (view_at diff_xyzw 7 1)
           (fresh ∅) "diff --git a/f b/f" ["--- a/f"] "+++ b/f" []
           "@@ -1,3 +1,4 @@" ["+x"; "+y"; " z"] "-w" [] 1
           {| group1 := "1"; group3 := Some "3"; group4 := "1";
              group6 := Some "4" |});
    first [reflexivity | simpl; lia].
Defined.

Lemma marker_on_first_line_missed_witness :
  is_marker "+++ b/f" = true ∧
  ∃ e st',
    run every_file repo_root (view_at diff_marker_first 2 1) (fresh ∅)
      = Some (Raise e, st') ∧
    file_name st' = None ∧ effects st' = effects (fresh ∅).
Proof.
  split; [reflexivity|].
  apply (LocateFacts.marker_on_first_line_missed every_file repo_root
           (view_at diff_marker_first 2 1) (fresh ∅) "+++ b/f" []
           "@@ -1 +1 @@" [] "+x" [] 1
           {| group1 := "1"; group3 := None; group4 := "1";
              group6 := None |});
    first [reflexivity | simpl; lia].
Defined.

Lemma marker_below_header_hides_it_witness :
  run every_file repo_root (view_at diff_marker_in_hunk 6 1) (fresh ∅)
  = Some (Raise TypeError,
          {| column := Some 0%Z; file_name := Some "junk";
             goto_line := None; settings := ∅; effects := [] |}).
Proof.
  apply (LocateFacts.marker_below_header_hides_it every_file repo_root
           (view_at diff_marker_in_hunk 6 1) (fresh ∅) "diff --git a/f b/f"
           ["--- a/f"; "+++ b/f"; "@@ -1 +1,3 @@"] "+++ b/junk" [" y"] "+x"
           [] 1);
    first [reflexivity | simpl; lia].
Defined.

Lemma stored_base_overrides_hint_witness :
  resolve (only_file "/kept/src/foo.txt") repo_root (view_at diff_foo 5 1)
    {| column := Some 0%Z; file_name := Some "src/foo.txt";
       goto_line := Some 11%Z;
       settings := {[ "git_root_dir" := "/kept" ]}; effects := [] |}
  = resolve (only_file "/kept/src/foo.txt") (λ _, None)
      (view_at diff_xyzw 4 1)
      {| column := Some 0%Z; file_name := Some "src/foo.txt";
         goto_line := Some 11%Z;
         settings := {[ "git_root_dir" := "/kept" ]}; effects := [] |}.
Proof.
  apply (LocateFacts.stored_base_overrides_hint
           (only_file "/kept/src/foo.txt") repo_root (view_at diff_foo 5 1)
           (view_at diff_xyzw 4 1) (λ _, None)).
  vm_compute. reflexivity.
Defined.

Lemma prompt_then_confirm_witness :
  ∃ st1 st2,
    run no_file repo_root (view_at diff_foo 5 1) (fresh ∅)
      = Some (Ok tt, st1) ∧
    effects st1
    = [ShowInputPanel "Enter base directory for file 'src/foo.txt':"
         "/work/repo"] ∧
    on_path_confirmed "/elsewhere" st1 = (Ok tt, st2) ∧
    settings st2 !! "git_root_dir" = Some "/elsewhere" ∧
    effects st2
    = [ShowInputPanel "Enter base directory for file 'src/foo.txt':"
         "/work/repo";
       SettingsSet "git_root_dir" "/elsewhere";
       OpenFile "/elsewhere/src/foo.txt";
       GotoXY "/elsewhere/src/foo.txt" 11 0].
Proof.
  destruct (LocateFacts.prompt_then_confirm no_file repo_root
              (view_at diff_foo 5 1) (fresh ∅)
              {| scan_file_name := Some "src/foo.txt";
                 hunk_line := Some "@@ -10,2 +10,3 @@";
                 line_offset := 2 |}
              "@@ -10,2 +10,3 @@"
              {| group1 := "10"; group3 := Some "2"; group4 := "10";
                 group6 := Some "3" |} "src/foo.txt" "/elsewhere"
              eq_refl eq_refl eq_refl eq_refl eq_refl eq_refl)
    as (st1 & st2 & Hrun & _ & He1 & Hconf & Hset & He2).
  exists st1, st2. split; [exact Hrun|]. split; [rewrite He1; reflexivity|].
  split; [exact Hconf|]. split; [exact Hset|].
  rewrite He2, He1. reflexivity.
Defined.

Lemma confirm_twice_witness :
  ∃ st1 st2,
    on_path_confirmed "/work/repo" located = (Ok tt, st1) ∧
    settings st1 !! "git_root_dir" = Some "/work/repo" ∧
    on_path_confirmed "/work/repo" st1 = (Ok tt, st2) ∧
    settings st2 = settings st1 ∧
    effects st2
    = effects st1 ++
      [OpenFile "/work/repo/src/foo.txt";
       GotoXY "/work/repo/src/foo.txt" 11 0].
Proof.
  apply (LocateFacts.confirm_twice "/work/repo" located "src/foo.txt" 11 0);
    reflexivity.
Defined.

End LocateInstances.
